(** * CPU vector ISA detection and selection (torch/_inductor/cpu_vec_isa.py)

    A shallow embedding of the module that decides which SIMD instruction
    set TorchInductor's C++ backend generates code for, together with the
    properties its specification states about it.

    The module talks to the outside world a lot: it runs the C++ compiler,
    writes a probe source, takes a file lock, builds and loads a shared
    object, reads /proc/cpuinfo and asks torch.cpu about the processor.
    All of that is gathered in a record [Env] of oracles, fixed for the life
    of one process.  What the process itself owns is the [State]: the three
    [functools.lru_cache] tables and a trace of the external actions done so
    far.  Python exceptions are an explicit [Raise] outcome. *)

From Stdlib Require Import List String Ascii ZArith Bool Lia.
Import ListNotations.
Open Scope string_scope.
Open Scope Z_scope.

Set Implicit Arguments.

(* ================================================================== *)
(** ** Python strings *)
(* ================================================================== *)

Module PyStr.

(** Carriage return and line feed, the two characters
    [get_compiler_version_info] replaces. *)
Definition CR : ascii := ascii_of_nat 13.
Definition LF : ascii := ascii_of_nat 10.

(** [str.isspace] on one character, which is also what the [\s] class of
    [re] accepts on a [str] pattern; restricted to the ASCII range, which
    is all /proc/cpuinfo and the descriptor names contain. *)
Definition is_space (c : ascii) : bool :=
  let n := nat_of_ascii c in
  ((9 <=? n) && (n <=? 13) || (28 <=? n) && (n <=? 32))%nat.

(** [s.startswith(p)] together with the remainder after [p]. *)
Fixpoint strip_prefix (p s : string) : option string :=
  match p, s with
  | EmptyString, _ => Some s
  | String a p', String b s' =>
      if Ascii.eqb a b then strip_prefix p' s' else None
  | String _ _, EmptyString => None
  end.

(** [s.replace(old, new)]: non-overlapping occurrences, left to right.
    [skip] counts the characters of an occurrence still to be dropped. *)
Fixpoint replace_from (old new : string) (skip : nat) (s : string) : string :=
  match s with
  | EmptyString => EmptyString
  | String c s' =>
      match skip with
      | S k => replace_from old new k s'
      | O =>
          match strip_prefix old s with
          | Some _ => new ++ replace_from old new (String.length old - 1) s'
          | None => String c (replace_from old new O s')
          end
      end
  end.

Definition replace (old new s : string) : string :=
  replace_from old new O s.

(** [s.split()] with no argument: the maximal runs of non-space
    characters.  [cur] is the run being read. *)
Fixpoint split_from (cur : string) (s : string) : list string :=
  match s with
  | EmptyString => if String.eqb cur "" then [] else [cur]
  | String c s' =>
      if is_space c
      then (if String.eqb cur "" then split_from "" s'
            else cur :: split_from "" s')
      else split_from (cur ++ String c "") s'
  end.

Definition split (s : string) : list string := split_from "" s.

(** The lines [readline] hands out one after the other, each with its
    line feed, the last one possibly without. *)
Fixpoint lines_from (cur : string) (s : string) : list string :=
  match s with
  | EmptyString => if String.eqb cur "" then [] else [cur]
  | String c s' =>
      if Ascii.eqb c LF
      then (cur ++ String c "") :: lines_from "" s'
      else lines_from (cur ++ String c "") s'
  end.

Definition readlines (content : string) : list string :=
  lines_from "" content.

Fixpoint drop_while (p : ascii -> bool) (s : string) : string :=
  match s with
  | EmptyString => EmptyString
  | String c s' => if p c then drop_while p s' else s
  end.

Fixpoint take_while (p : ascii -> bool) (s : string) : string :=
  match s with
  | EmptyString => EmptyString
  | String c s' => if p c then String c (take_while p s') else EmptyString
  end.

(** [x in xs] for a list of strings. *)
Definition mem (x : string) (xs : list string) : bool :=
  existsb (String.eqb x) xs.

(** [sub in s] for strings. *)
Fixpoint contains (sub s : string) : bool :=
  match strip_prefix sub s with
  | Some _ => true
  | None => match s with
            | EmptyString => false
            | String _ s' => contains sub s'
            end
  end.

End PyStr.

(* ================================================================== *)
(** ** The two regular expressions of the s390x branch *)
(* ================================================================== *)

Module Re.
Import PyStr.

(** The [re.match] of line 336, returning group 1.  Its pattern reads:
    start of string, the word features, any white space, a colon, any
    white space, then a group of any characters but line feeds, then
    the end of the string.  Both white-space runs are greedy and what
    follows each of them cannot start with a space; the group stops at
    the first line feed; and the end anchor accepts the end of the
    string or the position just before a final line feed. *)
Definition match_features (line : string) : option string :=
  match strip_prefix "features" line with
  | None => None
  | Some r1 =>
      match strip_prefix ":" (drop_while is_space r1) with
      | None => None
      | Some r3 =>
          let r4 := drop_while is_space r3 in
          let not_lf := fun c => negb (Ascii.eqb c LF) in
          let group := take_while not_lf r4 in
          let rest := drop_while not_lf r4 in
          if String.eqb rest "" || String.eqb rest (String LF "")
          then Some group else None
      end
  end.

(** The first class of that pattern: a caret or a blank. *)
Definition caret_or_blank (c : ascii) : bool :=
  Ascii.eqb c "^"%char || Ascii.eqb c " "%char.

(** The second class: a dollar or a blank. *)
Definition dollar_or_blank (c : ascii) : bool :=
  Ascii.eqb c "$"%char || Ascii.eqb c " "%char.

(** The [re.search] of line 339: somewhere in [group] the letters vxe
    stand between one or more characters of the first class and one or
    more of the second.  One character on each side decides. *)
Fixpoint search_vxe (group : string) : bool :=
  match group with
  | EmptyString => false
  | String c rest =>
      match strip_prefix "vxe" rest with
      | Some (String d _) =>
          (caret_or_blank c && dollar_or_blank d) || search_vxe rest
      | _ => search_vxe rest
      end
  end.

End Re.

(* ================================================================== *)
(** ** Outcomes, the process state and the monad *)
(* ================================================================== *)

(** The exceptions the module can meet.  [LockTimeout] is filelock's, raised
    when the lock is not obtained within [LOCK_TIMEOUT]; the others come
    from the file system, the subprocesses, the build and the dictionary
    of lane counts. *)
Inductive exn : Type :=
| FileNotFoundError
| OSError
| LockTimeout
| CalledProcessError
| BuildError
| KeyError.

(** What a Python call comes to: a value, or an exception on its way up. *)
Inductive result (A : Type) : Type :=
| Ok (a : A)
| Raise (e : exn).
Arguments Raise {A} e.

(** The descriptor classes.  Every class but the last is a dataclass
    without fields, so two instances are equal exactly when they belong to
    the same class, and [__hash__] hashes the display name: an instance is
    its class.  [InvalidVecISA] has the single instance [invalid_vec_isa]. *)
Inductive VecISA : Type :=
| VecAMX
| VecAVX512
| VecAVX2
| VecNEON
| VecZVECTOR
| InvalidVecISA.

Definition VecISA_eqb (a b : VecISA) : bool :=
  match a, b with
  | VecAMX, VecAMX | VecAVX512, VecAVX512 | VecAVX2, VecAVX2
  | VecNEON, VecNEON | VecZVECTOR, VecZVECTOR
  | InvalidVecISA, InvalidVecISA => true
  | _, _ => false
  end.

Definition invalid_vec_isa : VecISA := InvalidVecISA.

(** The element types the lane-count dictionaries know, and one they do
    not. *)
Inductive dtype : Type :=
| float32      (* torch.float *)
| bfloat16
| float16
| float64.

Definition dtype_eqb (a b : dtype) : bool :=
  match a, b with
  | float32, float32 | bfloat16, bfloat16
  | float16, float16 | float64, float64 => true
  | _, _ => false
  end.

(** What [CppBuilder(key, [input_path], CppTorchOptions(vec_isa=self,
    warning_all=False), output_dir)] is built from. *)
Record CppBuilder : Type := {
  cb_name : string;
  cb_sources : list string;
  cb_vec_isa : VecISA;
  cb_warning_all : bool;
  cb_output_dir : string
}.

(** The external actions a run performs, in the order it performs them. *)
Inductive event : Type :=
| EvCheckOutput (args : list string)          (* subprocess.check_output *)
| EvWrite (code ext extra : string)           (* codecache.write *)
| EvLockAcquire (path : string)               (* FileLock.__enter__ *)
| EvLockRelease (path : string)               (* FileLock.__exit__ *)
| EvBuild (b : CppBuilder)                    (* CppBuilder.build *)
| EvCheckCall (args : list string)            (* subprocess.check_call *)
| EvCpuQuery (name : string)                  (* torch.cpu._is_cpu_support_* *)
| EvInitAmx                                   (* torch.cpu._init_amx *)
| EvOpen (path : string).                     (* open(...) *)

(** The world around the process.  The first block is what the
    interpreter reports, the second the configuration, the third
    torch.cpu, the rest the collaborators in codecache, cpp_builder,
    filelock, os and subprocess, none of which is part of this module. *)
Record Env : Type := {
  sys_platform : string;
  sys_executable : string;
  platform_processor : string;
  platform_machine : string;
  torch_version : string;

  vec_isa_ok : option bool;                   (* config.cpp.vec_isa_ok *)
  simdlen : option Z;                         (* config.cpp.simdlen *)
  is_fbcode : bool;                           (* config.is_fbcode() *)

  _is_cpu_support_avx2 : bool;
  _is_cpu_support_avx512 : bool;
  _is_cpu_support_amx_tile : bool;
  _init_amx : bool;

  cpp_compiler : string;
  check_output : list string -> result string;
  write : string -> string -> string -> result (string * string);
  get_lock_dir : result string;
  path_join : string -> string -> string;
  path_dirname : string -> string;
  lock_enter : string -> result unit;
  new_builder : CppBuilder -> result unit;
  get_target_file_path : CppBuilder -> result string;
  path_isfile : string -> bool;
  build : CppBuilder -> result unit;
  check_call : list string -> result unit;
  proc_cpuinfo : result string
}.

(** What the process keeps between calls: the table of
    [VecISA.__bool__]'s lru_cache (one for all subclasses, keyed by the
    instance), that of [VecAMX.__bool__], that of [valid_vec_isa_list],
    and the trace. *)
Record State : Type := {
  bool_memo : list (VecISA * bool);
  amx_memo : option bool;
  list_memo : option (list VecISA);
  trace : list event
}.

Definition init_state : State :=
  {| bool_memo := []; amx_memo := None; list_memo := None; trace := [] |}.

Definition M (A : Type) : Type := State -> result A * State.

Definition ret {A} (a : A) : M A := fun s => (Ok a, s).

Definition raise {A} (e : exn) : M A := fun s => (Raise e, s).

Definition bind {A B} (m : M A) (k : A -> M B) : M B :=
  fun s => match m s with
           | (Ok a, s') => k a s'
           | (Raise e, s') => (Raise e, s')
           end.

(** [try: m  except Exception: h]. *)
Definition try_except {A} (m : M A) (h : exn -> M A) : M A :=
  fun s => match m s with
           | (Ok a, s') => (Ok a, s')
           | (Raise e, s') => h e s'
           end.

(** One external action: it is recorded, and its outcome is the
    oracle's. *)
Definition perform {A} (ev : event) (r : result A) : M A :=
  fun s => (r, {| bool_memo := bool_memo s; amx_memo := amx_memo s;
                  list_memo := list_memo s; trace := trace s ++ [ev] |}).

Declare Scope py_scope.
Delimit Scope py_scope with py.
Notation "x <- m ;; k" := (bind m (fun x => k))
  (at level 61, m at next level, right associativity) : py_scope.
Notation "m ;;; k" := (bind m (fun _ => k))
  (at level 61, right associativity) : py_scope.
Open Scope py_scope.

Definition run {A} (m : M A) (s : State) : result A := fst (m s).
Definition after {A} (m : M A) (s : State) : State := snd (m s).

Definition lift {A} (r : result A) : M A := fun s => (r, s).

Definition log (ev : event) (s : State) : State :=
  {| bool_memo := bool_memo s; amx_memo := amx_memo s;
     list_memo := list_memo s; trace := trace s ++ [ev] |}.

(** [try: m  finally: record ev], the exit half of a [with] block. *)
Definition finally {A} (m : M A) (ev : event) : M A :=
  fun s => let (r, s') := m s in (r, log ev s').

Definition set_bool_memo (d : VecISA) (b : bool) (s : State) : State :=
  {| bool_memo := (d, b) :: bool_memo s; amx_memo := amx_memo s;
     list_memo := list_memo s; trace := trace s |}.

Definition set_amx_memo (b : bool) (s : State) : State :=
  {| bool_memo := bool_memo s; amx_memo := Some b;
     list_memo := list_memo s; trace := trace s |}.

Definition set_list_memo (l : list VecISA) (s : State) : State :=
  {| bool_memo := bool_memo s; amx_memo := amx_memo s;
     list_memo := Some l; trace := trace s |}.

Fixpoint memo_lookup (d : VecISA) (m : list (VecISA * bool)) : option bool :=
  match m with
  | [] => None
  | (d', b) :: m' => if VecISA_eqb d d' then Some b else memo_lookup d m'
  end.

(** [functools.lru_cache(None)] around a function of the instance alone:
    a value found in the table is returned as it is; otherwise the body
    runs and, unless it raises, its value is entered.  [find] reads the
    entry of the call at hand and [enter] writes it. *)
Definition lru_cache {A} (find : State -> option A)
    (enter : A -> State -> State) (body : M A) : M A :=
  fun s =>
    match find s with
    | Some a => (Ok a, s)
    | None =>
        match body s with
        | (Ok a, s') => (Ok a, enter a s')
        | (Raise e, s') => (Raise e, s')
        end
    end.

(* ================================================================== *)
(** ** The probe sources *)
(* ================================================================== *)

(** The double quote, which the probe sources contain. *)
Definition dq : string := String (ascii_of_nat 34) "".

Definition _avx_code : string :=
"
#if defined(CPU_CAPABILITY_AVX512) || defined(CPU_CAPABILITY_AVX2) || defined(CPU_CAPABILITY_ZVECTOR) || defined(CPU_CAPABILITY_NEON)
#include <ATen/cpu/vec/functional.h>
#include <ATen/cpu/vec/vec.h>
#endif

alignas(64) float in_out_ptr0[16] = {0.0};

extern " ++ dq ++ "C" ++ dq ++ " void __avx_chk_kernel() {
    auto tmp0 = at::vec::Vectorized<float>(1);
    auto tmp1 = tmp0.exp();
    tmp1.store(in_out_ptr0);
}
".

Definition _avx_py_load : string :=
"
import torch
from ctypes import cdll
cdll.LoadLibrary(" ++ dq ++ "__lib_path__" ++ dq ++ ")
".

Definition _amx_code : string :=
"
#include <cstdint>
#include <immintrin.h>

struct amx_tilecfg {
  uint8_t palette_id;
  uint8_t start_row;
  uint8_t reserved_0[14];
  uint16_t colsb[16];
  uint8_t rows[16];
};

extern " ++ dq ++ "C" ++ dq ++ " void __amx_chk_kernel() {
  amx_tilecfg cfg = {0};
  _tile_loadconfig(&cfg);
  _tile_zero(0);
  _tile_dpbf16ps(0, 1, 2);
  _tile_dpbusd(0, 1, 2);
}
".

(* ================================================================== *)
(** ** The descriptors *)
(* ================================================================== *)

(** [__str__]; [VecAMX] appends to its parent's. *)
Definition str (self : VecISA) : string :=
  match self with
  | VecNEON => "asimd"
  | VecAVX512 => "avx512"
  | VecAMX => "avx512" ++ " amx_tile"
  | VecAVX2 => "avx2"
  | VecZVECTOR => "zvector"
  | InvalidVecISA => "INVALID_VEC_ISA"
  end.

(** [VecAMX] does not set [_bit_width] and so has [VecAVX512]'s. *)
Definition bit_width (self : VecISA) : Z :=
  match self with
  | VecNEON => 256
  | VecAVX512 => 512
  | VecAMX => 512
  | VecAVX2 => 256
  | VecZVECTOR => 256
  | InvalidVecISA => 0
  end.

Definition _dtype_nelements (self : VecISA) : list (dtype * Z) :=
  match self with
  | VecNEON => [(float32, 8); (bfloat16, 16); (float16, 16)]
  | VecAVX512 => [(float32, 16); (bfloat16, 32); (float16, 32)]
  | VecAMX => [(float32, 16); (bfloat16, 32); (float16, 32)]
  | VecAVX2 => [(float32, 8); (bfloat16, 16); (float16, 16)]
  | VecZVECTOR => [(float32, 8); (bfloat16, 16); (float16, 16)]
  | InvalidVecISA => []
  end.

(** Subscripting a dict: the value, or [KeyError]. *)
Fixpoint dict_get (k : dtype) (d : list (dtype * Z)) : result Z :=
  match d with
  | [] => Raise KeyError
  | (k', v) :: d' => if dtype_eqb k k' then Ok v else dict_get k d'
  end.

Definition nelements (self : VecISA) (dt : dtype) : result Z :=
  dict_get dt (_dtype_nelements self).

(* ================================================================== *)
(** ** The module's functions *)
(* ================================================================== *)

Section Program.

Variable env : Env.

Definition _IS_WINDOWS : bool := String.eqb (sys_platform env) "win32".

(** The test [sys.platform == "darwin" and platform.processor() == "arm"]
    of lines 170 and 322. *)
Definition is_apple_arm : bool :=
  String.eqb (sys_platform env) "darwin"
  && String.eqb (platform_processor env) "arm".

Definition _macro (self : VecISA) : list string :=
  match self with
  | VecNEON =>
      ["CPU_CAPABILITY_NEON"]
      ++ (if is_apple_arm then ["AT_BUILD_ARM_VEC256_WITH_SLEEF"] else [])
  | VecAVX512 => ["CPU_CAPABILITY_AVX512"]
  | VecAMX => ["CPU_CAPABILITY_AVX512"]
  | VecAVX2 => ["CPU_CAPABILITY_AVX2"]
  | VecZVECTOR =>
      ["CPU_CAPABILITY_ZVECTOR"; "CPU_CAPABILITY=ZVECTOR";
       "HAVE_ZVECTOR_CPU_DEFINITION"]
  | InvalidVecISA => [""]
  end.

Definition VecAVX512_arch_flags : string :=
  if negb _IS_WINDOWS
  then "-mavx512f -mavx512dq -mavx512vl -mavx512bw -mfma"
  else "/arch:AVX512".

Definition _arch_flags (self : VecISA) : string :=
  match self with
  | VecNEON => ""
  | VecAVX512 => VecAVX512_arch_flags
  | VecAMX => VecAVX512_arch_flags ++ " -mamx-tile -mamx-bf16 -mamx-int8"
  | VecAVX2 => if negb _IS_WINDOWS then "-mavx2 -mfma -mf16c" else "/arch:AVX2"
  | VecZVECTOR => "-mvx -mzvector"
  | InvalidVecISA => ""
  end.

Definition build_macro (self : VecISA) : list string := _macro self.
Definition build_arch_flags (self : VecISA) : string := _arch_flags self.

(** [subprocess.check_output(args, ...).decode(...)]. *)
Definition run_check_output (args : list string) : M string :=
  perform (EvCheckOutput args) (check_output env args).

(** Lines 19-37.  [None] stands for the [return ""] of the inner
    handler, which leaves the function before the two replacements. *)
Definition get_compiler_version_info (compiler : string) : M string :=
  r <- try_except
         (v <- run_check_output [compiler; "-v"] ;; ret (Some v))
         (fun _ =>
            try_except
              (v <- run_check_output [compiler; "--version"] ;; ret (Some v))
              (fun _ => ret None)) ;;
  match r with
  | None => ret ""
  | Some version_string =>
      let version_string :=
        PyStr.replace (String PyStr.CR "") "_" version_string in
      let version_string :=
        PyStr.replace (String PyStr.LF "") "_" version_string in
      ret version_string
  end.

(** Lines 40-52. *)
Definition _get_isa_dry_compile_fingerprint (isa_flags : string) : M string :=
  compiler_info <- get_compiler_version_info (cpp_compiler env) ;;
  let fingerprint :=
    compiler_info ++ "=" ++ isa_flags ++ "=" ++ torch_version env in
  ret fingerprint.

(** [with FileLock(path, timeout=LOCK_TIMEOUT): body].  Entering may
    raise filelock's timeout, and then the body does not run; once
    entered, the lock is released however the body ends. *)
Definition with_lock {A} (path : string) (body : M A) : M A :=
  perform (EvLockAcquire path) (lock_enter env path) ;;;
  finally body (EvLockRelease path).

(** Lines 112-153.  The [try] starts at line 134: what comes before it,
    the write, the lock and the two constructors, is not covered. *)
Definition check_build (self : VecISA) (code : string) : M bool :=
  extra <- _get_isa_dry_compile_fingerprint (_arch_flags self) ;;
  written <- perform (EvWrite code "cpp" extra) (write env code "cpp" extra) ;;
  let key := fst written in
  let input_path := snd written in
  lock_dir <- lift (get_lock_dir env) ;;
  with_lock (path_join env lock_dir (key ++ ".lock"))
    (let output_dir := path_dirname env input_path in
     let x86_isa_help_builder :=
       {| cb_name := key; cb_sources := [input_path]; cb_vec_isa := self;
          cb_warning_all := false; cb_output_dir := output_dir |} in
     lift (new_builder env x86_isa_help_builder) ;;;
     try_except
       (output_path <- lift (get_target_file_path env x86_isa_help_builder) ;;
        (if negb (path_isfile env output_path)
         then perform (EvBuild x86_isa_help_builder)
                      (build env x86_isa_help_builder)
         else ret tt) ;;;
        (let args := [sys_executable env; "-c";
                      PyStr.replace "__lib_path__" output_path _avx_py_load] in
         perform (EvCheckCall args) (check_call env args)) ;;;
        ret true)
       (fun _ => ret false)).

(** The body of [VecISA.__bool__], lines 157-163. *)
Definition VecISA_bool_body (self : VecISA) : M bool :=
  match vec_isa_ok env with
  | Some forced => ret forced
  | None =>
      if is_fbcode env then ret true
      else check_build self _avx_code
  end.

(** [VecISA.__bool__] under its [functools.lru_cache(None)], one table
    for all subclasses, keyed by the instance. *)
Definition VecISA_bool (self : VecISA) : M bool :=
  lru_cache (fun s => memo_lookup self (bool_memo s)) (set_bool_memo self)
            (VecISA_bool_body self).

(** The body of [VecAMX.__bool__], lines 230-235; [super().__bool__()]
    is [VecISA.__bool__] on the same instance. *)
Definition VecAMX_bool_body : M bool :=
  base <- VecISA_bool VecAMX ;;
  if base then
    if is_fbcode env then ret false
    else
      built <- check_build VecAMX _amx_code ;;
      if built then
        enabled <- perform EvInitAmx (Ok (_init_amx env)) ;;
        if enabled then ret true else ret false
      else ret false
  else ret false.

Definition VecAMX_bool : M bool :=
  lru_cache amx_memo set_amx_memo VecAMX_bool_body.

(** [InvalidVecISA.__bool__], lines 279-280. *)
Definition InvalidVecISA_bool : M bool := ret false.

(** [bool(isa)]: the [__bool__] of the instance's class. *)
Definition isa_bool (isa : VecISA) : M bool :=
  match isa with
  | VecAMX => VecAMX_bool
  | InvalidVecISA => InvalidVecISA_bool
  | _ => VecISA_bool isa
  end.

(** Lines 288-292. *)
Definition _check_and_append_supported_isa
    (dest : list string) (isa_supported : bool) (isa_name : string)
    : list string :=
  if isa_supported then dest ++ [isa_name] else dest.

(** Lines 285-309. *)
Definition x86_isa_checker : M (list string) :=
  let supported_isa : list string := [] in
  let Arch := platform_machine env in
  if negb (String.eqb Arch "x86_64") && negb (String.eqb Arch "AMD64")
  then ret supported_isa
  else
    avx2 <- perform (EvCpuQuery "avx2") (Ok (_is_cpu_support_avx2 env)) ;;
    avx512 <- perform (EvCpuQuery "avx512") (Ok (_is_cpu_support_avx512 env)) ;;
    amx_tile <- perform (EvCpuQuery "amx_tile")
                        (Ok (_is_cpu_support_amx_tile env)) ;;
    let supported_isa :=
      _check_and_append_supported_isa supported_isa avx2 "avx2" in
    let supported_isa :=
      _check_and_append_supported_isa supported_isa avx512 "avx512" in
    let supported_isa :=
      _check_and_append_supported_isa supported_isa amx_tile "amx_tile" in
    ret supported_isa.

Definition supported_vec_isa_list : list VecISA :=
  [VecAMX; VecAVX512; VecAVX2; VecNEON].

(** The loop of lines 331-341 over the lines of /proc/cpuinfo.  The
    [break] of line 341 leaves the loop over the groups, of which the
    pattern has one, not the loop over the lines. *)
Fixpoint scan_cpuinfo (lines : list string) (isa_list : list VecISA)
    : list VecISA :=
  match lines with
  | [] => isa_list
  | line :: rest =>
      match Re.match_features line with
      | Some group =>
          if existsb Re.search_vxe [group]
          then scan_cpuinfo rest (isa_list ++ [VecZVECTOR])
          else scan_cpuinfo rest isa_list
      | None => scan_cpuinfo rest isa_list
      end
  end.

(** The loop of lines 349-351.  [and] evaluates [bool(isa)] only when
    every name of the descriptor is among the supported ones. *)
Fixpoint scan_supported (_cpu_supported_x86_isa : list string)
    (isas : list VecISA) (isa_list : list VecISA) : M (list VecISA) :=
  match isas with
  | [] => ret isa_list
  | isa :: rest =>
      if forallb (fun flag => PyStr.mem flag _cpu_supported_x86_isa)
                 (PyStr.split (str isa))
      then
        usable <- isa_bool isa ;;
        scan_supported _cpu_supported_x86_isa rest
          (if usable then (isa_list ++ [isa])%list else isa_list)
      else scan_supported _cpu_supported_x86_isa rest isa_list
  end.

(** The body of [valid_vec_isa_list], lines 321-353. *)
Definition valid_vec_isa_list_body : M (list VecISA) :=
  let isa_list : list VecISA := [] in
  let isa_list : list VecISA :=
    if is_apple_arm then (isa_list ++ [VecNEON])%list else isa_list in
  if negb (PyStr.mem (sys_platform env) ["linux"; "win32"])
  then ret isa_list
  else
    let arch := platform_machine env in
    if String.eqb arch "s390x" then
      content <- perform (EvOpen "/proc/cpuinfo") (proc_cpuinfo env) ;;
      ret (scan_cpuinfo (PyStr.readlines content) isa_list)
    else if String.eqb arch "aarch64" then
      ret (isa_list ++ [VecNEON])%list
    else if PyStr.mem arch ["x86_64"; "AMD64"] then
      _cpu_supported_x86_isa <- x86_isa_checker ;;
      scan_supported _cpu_supported_x86_isa supported_vec_isa_list isa_list
    else ret isa_list.

(** [valid_vec_isa_list] under its [functools.lru_cache(None)]. *)
Definition valid_vec_isa_list : M (list VecISA) :=
  lru_cache list_memo set_list_memo valid_vec_isa_list_body.

(** The loop of lines 369-373. *)
Fixpoint first_of_width (width : Z) (l : list VecISA) : VecISA :=
  match l with
  | [] => invalid_vec_isa
  | isa :: rest =>
      if Z.eqb width (bit_width isa) then isa else first_of_width width rest
  end.

(** Lines 356-373. *)
Definition pick_vec_isa : M VecISA :=
  if is_fbcode env then ret VecAVX2
  else
    _valid_vec_isa_list <- valid_vec_isa_list ;;
    match _valid_vec_isa_list with
    | [] => ret invalid_vec_isa
    | first :: _ =>
        match simdlen env with
        | None => ret first
        | Some width => ret (first_of_width width _valid_vec_isa_list)
        end
    end.

End Program.

(* ================================================================== *)
(** ** Sample environments *)
(* ================================================================== *)

Module Sample.

(** A store that names the artifact after the probe and its fingerprint. *)
Definition sample_write (written : result unit) (code ext extra : string)
    : result (string * string) :=
  match written with
  | Raise e => Raise e
  | Ok _ =>
      let tag := if String.eqb code _amx_code then "amx" else "avx" in
      let key := tag ++ "@" ++ extra in
      Ok (key, "/tmp/torchinductor/" ++ key ++ "." ++ ext)
  end.

(** A compiler that answers [-v] and nothing else. *)
Definition sample_check_output (banner : string) (args : list string)
    : result string :=
  match args with
  | [_; flag] => if String.eqb flag "-v" then Ok banner
                 else Raise CalledProcessError
  | _ => Raise CalledProcessError
  end.

Definition gcc13 : string := "gcc version 13.2.0
".

(** An environment from the facts the scenarios vary; everything else is
    a machine on which every step goes well. *)
Definition mk_env (plat mach proc : string)
    (ok : option bool) (sl : option Z) (fb : bool)
    (avx2 avx512 amx_tile tiles_on : bool)
    (written locked : result unit)
    (builds : CppBuilder -> result unit)
    (cpuinfo : result string) : Env :=
  {| sys_platform := plat;
     sys_executable := "/usr/bin/python3";
     platform_processor := proc;
     platform_machine := mach;
     torch_version := "2.5.0";
     vec_isa_ok := ok;
     simdlen := sl;
     is_fbcode := fb;
     _is_cpu_support_avx2 := avx2;
     _is_cpu_support_avx512 := avx512;
     _is_cpu_support_amx_tile := amx_tile;
     _init_amx := tiles_on;
     cpp_compiler := "g++";
     check_output := sample_check_output gcc13;
     write := sample_write written;
     get_lock_dir := Ok "/tmp/torchinductor/locks";
     path_join := fun a b => a ++ "/" ++ b;
     path_dirname := fun _ => "/tmp/torchinductor";
     lock_enter := fun _ => locked;
     new_builder := fun _ => Ok tt;
     get_target_file_path :=
       fun b => Ok (cb_output_dir b ++ "/" ++ cb_name b ++ ".so");
     path_isfile := fun _ => false;
     build := builds;
     check_call := fun _ => Ok tt;
     proc_cpuinfo := cpuinfo |}.

Definition all_build : CppBuilder -> result unit := fun _ => Ok tt.
Definition none_build : CppBuilder -> result unit := fun _ => Raise BuildError.

(** The tile probe does not compile; the vector probe does, under any
    flags. *)
Definition tiles_do_not_build (b : CppBuilder) : result unit :=
  match PyStr.strip_prefix "amx" (cb_name b) with
  | Some _ => Raise BuildError
  | None => Ok tt
  end.

(** A Linux x86_64 host with AVX2, AVX-512 and AMX. *)
Definition sapphire (ok : option bool) (sl : option Z) (fb : bool)
    (builds : CppBuilder -> result unit) : Env :=
  mk_env "linux" "x86_64" "x86_64" ok sl fb true true true true
         (Ok tt) (Ok tt) builds (Raise FileNotFoundError).

(** A Linux x86_64 host with AVX2 only. *)
Definition haswell : Env :=
  mk_env "linux" "x86_64" "x86_64" None None false true false false false
         (Ok tt) (Ok tt) all_build (Raise FileNotFoundError).

(** A Linux aarch64 host on which nothing builds. *)
Definition graviton : Env :=
  mk_env "linux" "aarch64" "aarch64" None None false false false false false
         (Ok tt) (Ok tt) none_build (Raise FileNotFoundError).

(** A Linux s390x host with the given /proc/cpuinfo. *)
Definition mainframe (cpuinfo : result string) : Env :=
  mk_env "linux" "s390x" "s390x" None None false false false false false
         (Ok tt) (Ok tt) none_build cpuinfo.

Definition cpuinfo_z15 : string :=
"vendor_id       : IBM/S390
features	: esan3 zarch stfle msa ldisp eimm dfp edat etf3eh highgprs te vx vxd vxe gs vxe2 vxp sort dflt sie
".

(** The hosts of the scenarios below. *)
Definition fbcode_host : Env := sapphire None (Some 512) true none_build.
Definition width_999 : Env := sapphire None (Some 999) false all_build.
Definition width_512 : Env := sapphire None (Some 512) false all_build.
Definition width_256_no_tiles : Env :=
  sapphire None (Some 256) false tiles_do_not_build.
Definition auto_no_tiles : Env := sapphire None None false tiles_do_not_build.
Definition forced_no_tiles : Env :=
  sapphire (Some true) None false tiles_do_not_build.
Definition forced_off : Env := sapphire (Some false) None false all_build.

(** The probe source cannot be written. *)
Definition read_only_cache : Env :=
  mk_env "linux" "x86_64" "x86_64" None None false true false false false
         (Raise OSError) (Ok tt) all_build (Raise FileNotFoundError).

(** Another process holds the lock for longer than the timeout. *)
Definition contended_lock : Env :=
  mk_env "linux" "x86_64" "x86_64" None None false true false false false
         (Ok tt) (Raise LockTimeout) all_build (Raise FileNotFoundError).

(** The AVX-512 host in fbcode, with 999 bits requested. *)
Definition fbcode_width_999 : Env :=
  sapphire None (Some 999) true all_build.

(** A machine older than the vector-enhancements facility. *)
Definition cpuinfo_z13 : string :=
"vendor_id       : IBM/S390
features	: esan3 zarch stfle msa ldisp eimm dfp edat etf3eh highgprs te vx sie
".

(** [e] with another compiler behind [cpp_compiler]. *)
Definition with_check_output (f : list string -> result string) (e : Env)
    : Env :=
  {| sys_platform := sys_platform e;
     sys_executable := sys_executable e;
     platform_processor := platform_processor e;
     platform_machine := platform_machine e;
     torch_version := torch_version e;
     vec_isa_ok := vec_isa_ok e;
     simdlen := simdlen e;
     is_fbcode := is_fbcode e;
     _is_cpu_support_avx2 := _is_cpu_support_avx2 e;
     _is_cpu_support_avx512 := _is_cpu_support_avx512 e;
     _is_cpu_support_amx_tile := _is_cpu_support_amx_tile e;
     _init_amx := _init_amx e;
     cpp_compiler := cpp_compiler e;
     check_output := f;
     write := write e;
     get_lock_dir := get_lock_dir e;
     path_join := path_join e;
     path_dirname := path_dirname e;
     lock_enter := lock_enter e;
     new_builder := new_builder e;
     get_target_file_path := get_target_file_path e;
     path_isfile := path_isfile e;
     build := build e;
     check_call := check_call e;
     proc_cpuinfo := proc_cpuinfo e |}.

Definition gcc14 : string := "gcc version 14.1.0
".

(** [haswell] after a compiler upgrade. *)
Definition haswell_upgraded : Env :=
  with_check_output (sample_check_output gcc14) haswell.

(** Two processors, each with its own features line. *)
Definition cpuinfo_two_cpus : string :=
"processor 0: version = FF
features	: esan3 zarch vx vxd vxe gs sie
processor 1: version = FF
features	: esan3 zarch vx vxd vxe gs sie
".

(** An x86_64 host under FreeBSD. *)
Definition freebsd : Env :=
  mk_env "freebsd13" "amd64" "amd64" None None false true true false false
         (Ok tt) (Ok tt) all_build (Raise FileNotFoundError).

(** [haswell] without a compiler. *)
Definition haswell_silent : Env :=
  with_check_output (fun _ => Raise CalledProcessError) haswell.

(** [haswell] with every artifact already on disk, where a build, were
    it run, would fail. *)
Definition warm_cache : Env :=
  {| sys_platform := sys_platform haswell;
     sys_executable := sys_executable haswell;
     platform_processor := platform_processor haswell;
     platform_machine := platform_machine haswell;
     torch_version := torch_version haswell;
     vec_isa_ok := vec_isa_ok haswell;
     simdlen := simdlen haswell;
     is_fbcode := is_fbcode haswell;
     _is_cpu_support_avx2 := _is_cpu_support_avx2 haswell;
     _is_cpu_support_avx512 := _is_cpu_support_avx512 haswell;
     _is_cpu_support_amx_tile := _is_cpu_support_amx_tile haswell;
     _init_amx := _init_amx haswell;
     cpp_compiler := cpp_compiler haswell;
     check_output := check_output haswell;
     write := write haswell;
     get_lock_dir := get_lock_dir haswell;
     path_join := path_join haswell;
     path_dirname := path_dirname haswell;
     lock_enter := lock_enter haswell;
     new_builder := new_builder haswell;
     get_target_file_path := get_target_file_path haswell;
     path_isfile := fun _ => true;
     build := none_build;
     check_call := check_call haswell;
     proc_cpuinfo := proc_cpuinfo haswell |}.

End Sample.

Unset Implicit Arguments.

(* ================================================================== *)
(** ** The vocabulary of the proofs *)
(* ================================================================== *)

(** The tables of two states agree. *)
Definition same_memos (s s' : State) : Prop :=
  bool_memo s = bool_memo s' /\ amx_memo s = amx_memo s'
  /\ list_memo s = list_memo s'.

(** [m] comes to the same outcome from every state, leaves the tables
    alone, and only ever extends the trace. *)
Definition oblivious {A} (m : M A) : Prop :=
  (forall s s', run m s = run m s')
  /\ (forall s, same_memos (after m s) s)
  /\ (forall s, exists evs, trace (after m s) = (trace s ++ evs)%list
                 /\ forall s', trace (after m s') = (trace s' ++ evs)%list).

(** Every entry of the three tables is the outcome the cached function
    has in a fresh process of the same environment. *)
Definition memo_consistent (env : Env) (s : State) : Prop :=
  (forall d b, memo_lookup d (bool_memo s) = Some b ->
               run (VecISA_bool env d) init_state = Ok b)
  /\ (forall b, amx_memo s = Some b ->
                run (VecAMX_bool env) init_state = Ok b)
  /\ (forall l, list_memo s = Some l ->
                run (valid_vec_isa_list env) init_state = Ok l).

(** From consistent tables [m] comes to the outcome it has in a fresh
    process, and leaves the tables consistent. *)
Definition steady (env : Env) {A} (m : M A) : Prop :=
  forall s, memo_consistent env s ->
            run m s = run m init_state /\ memo_consistent env (after m s).

(** A process starts with empty tables and from then on runs the
    module's functions, in any order and any number of times. *)
Inductive reachable (env : Env) : State -> Prop :=
| reach_init : reachable env init_state
| reach_pick s :
    reachable env s -> reachable env (after (pick_vec_isa env) s)
| reach_valid s :
    reachable env s -> reachable env (after (valid_vec_isa_list env) s)
| reach_bool s isa :
    reachable env s -> reachable env (after (isa_bool env isa) s)
| reach_super_bool s isa :
    reachable env s -> reachable env (after (VecISA_bool env isa) s)
| reach_check_build s isa code :
    reachable env s -> reachable env (after (check_build env isa code) s)
| reach_x86 s :
    reachable env s -> reachable env (after (x86_isa_checker env) s)
| reach_version s compiler :
    reachable env s ->
    reachable env (after (get_compiler_version_info env compiler) s).

(** The test of line 350 before the [and]: every name of the descriptor
    is among the supported ones. *)
Definition names_supported (sup : list string) (isa : VecISA) : bool :=
  forallb (fun flag => PyStr.mem flag sup) (PyStr.split (str isa)).

(** [bool(isa)] comes out true in state [s]. *)
Definition usable_in (env : Env) (s : State) (isa : VecISA) : bool :=
  match run (isa_bool env isa) s with
  | Ok true => true
  | _ => false
  end.

(** The whole test of line 350. *)
Definition kept_in (env : Env) (s : State) (sup : list string)
    (isa : VecISA) : bool :=
  names_supported sup isa && usable_in env s isa.

(** The four shapes the list of valid descriptors can have. *)
Inductive list_shape (env : Env) (s : State) (l : list VecISA) : Prop :=
| shape_other_platform :
    PyStr.mem (sys_platform env) ["linux"; "win32"] = false ->
    l = (if is_apple_arm env then [VecNEON] else []) ->
    list_shape env s l
| shape_s390x content :
    platform_machine env = "s390x" ->
    proc_cpuinfo env = Ok content ->
    l = scan_cpuinfo (PyStr.readlines content) [] ->
    list_shape env s l
| shape_aarch64 :
    platform_machine env = "aarch64" ->
    l = [VecNEON] ->
    list_shape env s l
| shape_x86 sup :
    PyStr.mem (sys_platform env) ["linux"; "win32"] = true ->
    PyStr.mem (platform_machine env) ["x86_64"; "AMD64"] = true ->
    run (x86_isa_checker env) s = Ok sup ->
    l = filter (kept_in env s sup) supported_vec_isa_list ->
    list_shape env s l
| shape_unknown_machine :
    l = [] ->
    list_shape env s l.

(** [m] only appends events, and each of them satisfies [P]. *)
Definition emits {A} (P : event -> Prop) (m : M A) : Prop :=
  forall s, exists evs,
    trace (after m s) = (trace s ++ evs)%list /\ Forall P evs.

(** The event is a call of [subprocess.check_output]. *)
Definition is_check_output (ev : event) : Prop :=
  exists args, ev = EvCheckOutput args.

(** The event is not a call of [codecache.write]. *)
Definition not_a_write (ev : event) : Prop :=
  forall code ext extra, ev <> EvWrite code ext extra.

(** The builder [check_build] makes for a key and an input path. *)
Definition builder_of (env : Env) (self : VecISA) (key input_path : string)
    : CppBuilder :=
  {| cb_name := key; cb_sources := [input_path]; cb_vec_isa := self;
     cb_warning_all := false;
     cb_output_dir := path_dirname env input_path |}.

(** The arguments of the subprocess that loads the artifact. *)
Definition load_args (env : Env) (output_path : string) : list string :=
  [sys_executable env; "-c";
   PyStr.replace "__lib_path__" output_path _avx_py_load].

(** The event is the taking of the file lock. *)
Definition is_lock_acquire (ev : event) : bool :=
  match ev with EvLockAcquire _ => true | _ => false end.

(** The event is a call of [codecache.write], as a boolean. *)
Definition is_write (ev : event) : bool :=
  match ev with EvWrite _ _ _ => true | _ => false end.

(** No line of the file has a features entry in which the search for vxe
    succeeds. *)
Definition no_vxe_feature (content : string) : Prop :=
  forall line group,
    In line (PyStr.readlines content) ->
    Re.match_features line = Some group ->
    Re.search_vxe group = false.

(** The characters of a string, in order. *)
Definition chars (s : string) : list ascii := list_ascii_of_string s.

(** The two replacements at the end of [get_compiler_version_info]. *)
Definition one_line (version_string : string) : string :=
  PyStr.replace (String PyStr.LF "") "_"
    (PyStr.replace (String PyStr.CR "") "_" version_string).

(** If the event is a run of the build, it builds for a descriptor that
    satisfies [allowed]. *)
Definition builds_for (allowed : VecISA -> Prop) (ev : event) : Prop :=
  forall b, ev = EvBuild b -> allowed (cb_vec_isa b).

(** Any event at all. *)
Definition any_event (ev : event) : Prop := True.

(** The event is a run of the build. *)
Definition is_build (ev : event) : bool :=
  match ev with EvBuild _ => true | _ => false end.

(** The event is the release of the file lock. *)
Definition is_lock_release (ev : event) : bool :=
  match ev with EvLockRelease _ => true | _ => false end.

(** The event is the taking or the release of the file lock. *)
Definition is_lock_event (ev : event) : Prop :=
  (exists p, ev = EvLockAcquire p) \/ (exists p, ev = EvLockRelease p).

(** Line 336 and 339 together: the line has a features entry in which
    the search for vxe succeeds. *)
Definition line_has_vxe (line : string) : bool :=
  match Re.match_features line with
  | Some group => existsb Re.search_vxe [group]
  | None => false
  end.

(* ================================================================== *)
(** ** Reasoning about runs *)
(* ================================================================== *)

Lemma run_bind {A B} (m : M A) (k : A -> M B) (s : State) :
  run (bind m k) s =
  match run m s with
  | Ok a => run (k a) (after m s)
  | Raise e => Raise e
  end.
Proof.
  unfold run, after, bind. destruct (m s) as [[a | e] s']; reflexivity.
Qed.

Lemma after_bind {A B} (m : M A) (k : A -> M B) (s : State) :
  after (bind m k) s =
  match run m s with
  | Ok a => after (k a) (after m s)
  | Raise e => after m s
  end.
Proof.
  unfold run, after, bind. destruct (m s) as [[a | e] s']; reflexivity.
Qed.

Lemma run_try_except {A} (m : M A) (h : exn -> M A) (s : State) :
  run (try_except m h) s =
  match run m s with
  | Ok a => Ok a
  | Raise e => run (h e) (after m s)
  end.
Proof.
  unfold run, after, try_except. destruct (m s) as [[a | e] s']; reflexivity.
Qed.

Lemma after_try_except {A} (m : M A) (h : exn -> M A) (s : State) :
  after (try_except m h) s =
  match run m s with
  | Ok a => after m s
  | Raise e => after (h e) (after m s)
  end.
Proof.
  unfold run, after, try_except. destruct (m s) as [[a | e] s']; reflexivity.
Qed.

Lemma run_finally {A} (m : M A) (ev : event) (s : State) :
  run (finally m ev) s = run m s.
Proof. unfold run, finally. destruct (m s); reflexivity. Qed.

Lemma after_finally {A} (m : M A) (ev : event) (s : State) :
  after (finally m ev) s = log ev (after m s).
Proof. unfold after, finally. destruct (m s); reflexivity. Qed.

Lemma run_perform {A} (ev : event) (r : result A) (s : State) :
  run (perform ev r) s = r.
Proof. reflexivity. Qed.

Lemma after_perform {A} (ev : event) (r : result A) (s : State) :
  after (perform ev r) s = log ev s.
Proof. reflexivity. Qed.

Lemma run_lift {A} (r : result A) (s : State) : run (lift r) s = r.
Proof. reflexivity. Qed.

Lemma after_lift {A} (r : result A) (s : State) : after (lift r) s = s.
Proof. reflexivity. Qed.

Lemma run_ret {A} (a : A) (s : State) : run (ret a) s = Ok a.
Proof. reflexivity. Qed.

Lemma after_ret {A} (a : A) (s : State) : after (ret a) s = s.
Proof. reflexivity. Qed.

Create Rewrite HintDb runs.
#[export] Hint Rewrite @run_bind @after_bind @run_try_except @after_try_except
  @run_finally @after_finally @run_perform @after_perform
  @run_lift @after_lift @run_ret @after_ret : runs.

(** *** Actions that neither read nor write the three tables *)

Lemma same_memos_refl s : same_memos s s.
Proof. repeat split. Qed.

Lemma same_memos_trans s1 s2 s3 :
  same_memos s1 s2 -> same_memos s2 s3 -> same_memos s1 s3.
Proof.
  unfold same_memos. intros (a & b & c) (d & e & f).
  repeat split; congruence.
Qed.

Lemma same_memos_log ev s : same_memos (log ev s) s.
Proof. repeat split. Qed.

Lemma oblivious_ret {A} (a : A) : oblivious (ret a).
Proof.
  repeat split; intros; exists []; split; intros; cbn;
    now rewrite app_nil_r.
Qed.

Lemma oblivious_lift {A} (r : result A) : oblivious (lift r).
Proof.
  repeat split; intros; exists []; split; intros; cbn;
    now rewrite app_nil_r.
Qed.

Lemma oblivious_perform {A} ev (r : result A) : oblivious (perform ev r).
Proof.
  repeat split; intros; exists [ev]; split; intros; reflexivity.
Qed.

Lemma oblivious_bind {A B} (m : M A) (k : A -> M B) :
  oblivious m -> (forall a, oblivious (k a)) -> oblivious (bind m k).
Proof.
  intros (Hr & Hm & Ht) Hk. split; [| split].
  - intros s s'. rewrite !run_bind, (Hr s s').
    destruct (run m s') as [a | e]; [| reflexivity].
    apply (Hk a).
  - intros s. rewrite after_bind.
    destruct (run m s) as [a | e]; [| apply Hm].
    eapply same_memos_trans; [apply (Hk a) | apply Hm].
  - intros s. destruct (Ht s) as (evs1 & E1 & F1).
    destruct (run m s) as [a | e] eqn:R.
    + destruct (Hk a) as (_ & _ & Htk).
      destruct (Htk (after m s)) as (evs2 & E2 & F2).
      exists (evs1 ++ evs2)%list. split.
      * rewrite after_bind, R, E2, E1. now rewrite app_assoc.
      * intros s'. rewrite after_bind, (Hr s' s), R, F2, F1.
        now rewrite app_assoc.
    + exists evs1. split.
      * now rewrite after_bind, R.
      * intros s'. now rewrite after_bind, (Hr s' s), R.
Qed.

Lemma oblivious_try_except {A} (m : M A) (h : exn -> M A) :
  oblivious m -> (forall e, oblivious (h e)) -> oblivious (try_except m h).
Proof.
  intros (Hr & Hm & Ht) Hh. split; [| split].
  - intros s s'. rewrite !run_try_except, (Hr s s').
    destruct (run m s') as [a | e]; [reflexivity |].
    apply (Hh e).
  - intros s. rewrite after_try_except.
    destruct (run m s) as [a | e]; [apply Hm |].
    eapply same_memos_trans; [apply (Hh e) | apply Hm].
  - intros s. destruct (Ht s) as (evs1 & E1 & F1).
    destruct (run m s) as [a | e] eqn:R.
    + exists evs1. split.
      * now rewrite after_try_except, R.
      * intros s'. now rewrite after_try_except, (Hr s' s), R.
    + destruct (Hh e) as (_ & _ & Hth).
      destruct (Hth (after m s)) as (evs2 & E2 & F2).
      exists (evs1 ++ evs2)%list. split.
      * rewrite after_try_except, R, E2, E1. now rewrite app_assoc.
      * intros s'. rewrite after_try_except, (Hr s' s), R, F2, F1.
        now rewrite app_assoc.
Qed.

Lemma oblivious_finally {A} (m : M A) (ev : event) :
  oblivious m -> oblivious (finally m ev).
Proof.
  intros (Hr & Hm & Ht). split; [| split].
  - intros s s'. rewrite !run_finally. apply Hr.
  - intros s. rewrite after_finally.
    eapply same_memos_trans; [apply same_memos_log | apply Hm].
  - intros s. destruct (Ht s) as (evs & E & F).
    exists (evs ++ [ev])%list. split.
    + rewrite after_finally. cbn. rewrite E. now rewrite app_assoc.
    + intros s'. rewrite after_finally. cbn. rewrite F.
      now rewrite app_assoc.
Qed.

Lemma oblivious_if {A} (b : bool) (m1 m2 : M A) :
  oblivious m1 -> oblivious m2 -> oblivious (if b then m1 else m2).
Proof. destruct b; auto. Qed.

Create HintDb oblivious.
#[export] Hint Resolve oblivious_ret oblivious_lift oblivious_perform
  oblivious_bind oblivious_try_except oblivious_finally oblivious_if
  : oblivious.

Section Obliviousness.

Variable env : Env.

Lemma oblivious_with_lock {A} path (body : M A) :
  oblivious body -> oblivious (with_lock env path body).
Proof. intros. unfold with_lock. auto with oblivious. Qed.

Lemma oblivious_get_compiler_version_info compiler :
  oblivious (get_compiler_version_info env compiler).
Proof.
  unfold get_compiler_version_info, run_check_output.
  apply oblivious_bind.
  - auto 10 with oblivious.
  - intros [v |]; auto with oblivious.
Qed.

Lemma oblivious_fingerprint flags :
  oblivious (_get_isa_dry_compile_fingerprint env flags).
Proof.
  unfold _get_isa_dry_compile_fingerprint.
  apply oblivious_bind;
    auto using oblivious_get_compiler_version_info with oblivious.
Qed.

Lemma oblivious_check_build self code : oblivious (check_build env self code).
Proof.
  unfold check_build.
  apply oblivious_bind; [apply oblivious_fingerprint |]. intros extra.
  apply oblivious_bind; [auto with oblivious |]. intros written.
  apply oblivious_bind; [auto with oblivious |]. intros lock_dir.
  apply oblivious_with_lock.
  apply oblivious_bind; [auto with oblivious |]. intros _.
  apply oblivious_try_except; [| auto with oblivious].
  apply oblivious_bind; [auto with oblivious |]. intros output_path.
  auto 10 with oblivious.
Qed.

Lemma oblivious_x86_isa_checker : oblivious (x86_isa_checker env).
Proof.
  unfold x86_isa_checker.
  apply oblivious_if; auto 10 with oblivious.
Qed.

End Obliviousness.

(** *** The tables hold what a fresh process would compute *)

Section Consistency.

Variable env : Env.

Lemma memo_consistent_init : memo_consistent env init_state.
Proof. repeat split; cbn; intros; discriminate. Qed.

Lemma memo_consistent_same s s' :
  same_memos s s' -> memo_consistent env s' -> memo_consistent env s.
Proof.
  intros (a & b & c) (H1 & H2 & H3). unfold memo_consistent.
  rewrite a, b, c. auto.
Qed.

Lemma oblivious_steady {A} (m : M A) : oblivious m -> steady env m.
Proof.
  intros (Hr & Hm & _) s Hs. split; [apply Hr |].
  eapply memo_consistent_same; [apply Hm | exact Hs].
Qed.

Lemma steady_run {A} (m : M A) s s' :
  steady env m -> memo_consistent env s -> memo_consistent env s' ->
  run m s = run m s'.
Proof.
  intros H Hs Hs'. destruct (H s Hs) as [-> _]. destruct (H s' Hs') as [-> _].
  reflexivity.
Qed.

Lemma steady_bind {A B} (m : M A) (k : A -> M B) :
  steady env m -> (forall a, steady env (k a)) -> steady env (bind m k).
Proof.
  intros Hm Hk s Hs. destruct (Hm s Hs) as [R C].
  rewrite !run_bind, after_bind, R.
  destruct (run m init_state) as [a | e]; [| auto].
  destruct (Hk a _ C) as [R' C']. split; [| exact C'].
  apply steady_run; auto.
  apply Hm, memo_consistent_init.
Qed.

Lemma steady_if {A} (b : bool) (m1 m2 : M A) :
  steady env m1 -> steady env m2 -> steady env (if b then m1 else m2).
Proof. destruct b; auto. Qed.

Lemma steady_ret {A} (a : A) : steady env (ret a).
Proof. apply oblivious_steady, oblivious_ret. Qed.

Lemma steady_check_build self code : steady env (check_build env self code).
Proof. apply oblivious_steady, oblivious_check_build. Qed.

Lemma steady_VecISA_bool_body self : steady env (VecISA_bool_body env self).
Proof.
  unfold VecISA_bool_body. destruct (vec_isa_ok env); [apply steady_ret |].
  apply steady_if; [apply steady_ret | apply steady_check_build].
Qed.

Lemma VecISA_eqb_eq a b : VecISA_eqb a b = true <-> a = b.
Proof. destruct a, b; cbn; split; congruence. Qed.

Lemma run_lru_fresh {A} find enter (body : M A) s :
  find s = None -> run (lru_cache find enter body) s = run body s.
Proof.
  intros F. unfold run, lru_cache. rewrite F.
  destruct (body s) as [[a | e] s']; reflexivity.
Qed.

(** The cached function is steady when its body is, provided an entry
    found is the fresh outcome and entering the fresh outcome keeps the
    tables consistent. *)
Lemma steady_lru {A} find enter (body : M A) :
  find init_state = None ->
  steady env body ->
  (forall s a, memo_consistent env s -> find s = Some a ->
               run (lru_cache find enter body) init_state = Ok a) ->
  (forall s a, memo_consistent env s ->
               run (lru_cache find enter body) init_state = Ok a ->
               memo_consistent env (enter a s)) ->
  steady env (lru_cache find enter body).
Proof.
  intros F0 Hb Hfind Henter s Hs.
  destruct (find s) as [a |] eqn:F.
  - specialize (Hfind s a Hs F).
    unfold run, after, lru_cache in *. rewrite F. cbn. rewrite F0 in *.
    split; [congruence | exact Hs].
  - destruct (Hb s Hs) as [R C].
    assert (E : run (lru_cache find enter body) init_state = run body s)
      by (rewrite run_lru_fresh by exact F0; congruence).
    split.
    + rewrite run_lru_fresh by exact F. congruence.
    + specialize (fun a => Henter (after body s) a C). rewrite E in Henter.
      unfold run, after, lru_cache in *. rewrite F.
      destruct (body s) as [[a | e] s']; cbn in *; auto.
Qed.

Lemma steady_VecISA_bool self : steady env (VecISA_bool env self).
Proof.
  apply steady_lru.
  - reflexivity.
  - apply steady_VecISA_bool_body.
  - intros s b (H1 & _) L. apply (H1 _ _ L).
  - intros s b (C1 & C2 & C3) R. repeat split; cbn; auto.
    intros d b'. destruct (VecISA_eqb d self) eqn:E.
    + apply VecISA_eqb_eq in E. subst d. intros [= <-]. exact R.
    + apply C1.
Qed.

Lemma steady_VecAMX_bool_body : steady env (VecAMX_bool_body env).
Proof.
  unfold VecAMX_bool_body.
  apply steady_bind; [apply steady_VecISA_bool |]. intros base.
  apply steady_if; [| apply steady_ret].
  apply steady_if; [apply steady_ret |].
  apply oblivious_steady.
  apply oblivious_bind; [apply oblivious_check_build |]. intros built.
  apply oblivious_if; [| apply oblivious_ret].
  apply oblivious_bind; [apply oblivious_perform |]. intros enabled.
  apply oblivious_if; apply oblivious_ret.
Qed.

Lemma steady_VecAMX_bool : steady env (VecAMX_bool env).
Proof.
  apply steady_lru.
  - reflexivity.
  - apply steady_VecAMX_bool_body.
  - intros s b (_ & H2 & _) L. apply (H2 _ L).
  - intros s b (C1 & C2 & C3) R. repeat split; cbn; auto.
    intros b' [= <-]. exact R.
Qed.

Lemma steady_isa_bool isa : steady env (isa_bool env isa).
Proof.
  destruct isa; cbn;
    auto using steady_VecISA_bool, steady_VecAMX_bool.
  apply steady_ret.
Qed.

Lemma steady_scan_supported sup isas :
  forall isa_list, steady env (scan_supported env sup isas isa_list).
Proof.
  induction isas as [| isa rest IH]; intros isa_list; cbn.
  - apply steady_ret.
  - apply steady_if; [| apply IH].
    apply steady_bind; [apply steady_isa_bool |]. intros usable. apply IH.
Qed.

Lemma steady_valid_vec_isa_list_body : steady env (valid_vec_isa_list_body env).
Proof.
  unfold valid_vec_isa_list_body.
  apply steady_if; [apply steady_ret |].
  apply steady_if.
  { apply oblivious_steady. auto with oblivious. }
  apply steady_if; [apply steady_ret |].
  apply steady_if; [| apply steady_ret].
  apply steady_bind.
  - apply oblivious_steady, oblivious_x86_isa_checker.
  - intros sup. apply steady_scan_supported.
Qed.

Lemma steady_valid_vec_isa_list : steady env (valid_vec_isa_list env).
Proof.
  apply steady_lru.
  - reflexivity.
  - apply steady_valid_vec_isa_list_body.
  - intros s l (_ & _ & H3) L. apply (H3 _ L).
  - intros s l (C1 & C2 & C3) R. repeat split; cbn; auto.
    intros l' [= <-]. exact R.
Qed.

Lemma steady_pick_vec_isa : steady env (pick_vec_isa env).
Proof.
  unfold pick_vec_isa. apply steady_if; [apply steady_ret |].
  apply steady_bind; [apply steady_valid_vec_isa_list |].
  intros [| first rest]; [apply steady_ret |].
  destruct (simdlen env); apply steady_ret.
Qed.

End Consistency.

(** *** The states a process goes through *)

Lemma reachable_consistent env s : reachable env s -> memo_consistent env s.
Proof.
  induction 1.
  - apply memo_consistent_init.
  - now apply steady_pick_vec_isa.
  - now apply steady_valid_vec_isa_list.
  - now apply steady_isa_bool.
  - now apply steady_VecISA_bool.
  - now apply steady_check_build.
  - apply oblivious_steady; auto using oblivious_x86_isa_checker.
  - apply oblivious_steady;
      auto using oblivious_get_compiler_version_info.
Qed.

(** Memoisation is invisible: in a reachable state every function of the
    module answers what it answers in a fresh process. *)
Lemma reachable_run {A} env (m : M A) s :
  steady env m -> reachable env s -> run m s = run m init_state.
Proof. intros H R. apply H, reachable_consistent, R. Qed.

(* ================================================================== *)
(** ** The list of valid descriptors *)
(* ================================================================== *)

Section ValidList.

Variable env : Env.

Lemma usable_in_steady s s' isa :
  memo_consistent env s -> memo_consistent env s' ->
  usable_in env s isa = usable_in env s' isa.
Proof.
  intros Hs Hs'. unfold usable_in.
  now rewrite (steady_run env _ s s' (steady_isa_bool env isa) Hs Hs').
Qed.

(** When the loop of lines 349-351 ends normally, it has appended, in
    order, the descriptors whose names are supported and whose [bool] is
    true. *)
Lemma scan_supported_sound sup isas :
  forall isa_list s l,
    memo_consistent env s ->
    run (scan_supported env sup isas isa_list) s = Ok l ->
    l = (isa_list ++ filter (kept_in env s sup) isas)%list.
Proof.
  induction isas as [| isa rest IH]; intros isa_list s l Hs.
  - cbn. intros [= <-]. now rewrite app_nil_r.
  - cbn [scan_supported filter]. unfold kept_in at 1.
    fold (names_supported sup isa).
    destruct (names_supported sup isa); cbn [andb].
    + rewrite run_bind. unfold usable_in at 1.
      destruct (run (isa_bool env isa) s) as [usable | e] eqn:R;
        [| discriminate].
      intros H. apply IH in H; [| now apply steady_isa_bool].
      rewrite H.
      assert (F : filter (kept_in env (after (isa_bool env isa) s) sup) rest
                  = filter (kept_in env s sup) rest).
      { apply filter_ext. intros d. unfold kept_in. f_equal.
        apply usable_in_steady; [now apply steady_isa_bool | exact Hs]. }
      rewrite F. destruct usable; [| reflexivity].
      now rewrite <- app_assoc.
    + apply IH, Hs.
Qed.

(** And it does end normally when no [bool] it evaluates raises. *)
Lemma scan_supported_complete sup isas :
  forall isa_list s,
    memo_consistent env s ->
    (forall isa, In isa isas -> names_supported sup isa = true ->
                 exists b, run (isa_bool env isa) s = Ok b) ->
    run (scan_supported env sup isas isa_list) s
    = Ok (isa_list ++ filter (kept_in env s sup) isas)%list.
Proof.
  induction isas as [| isa rest IH]; intros isa_list s Hs Hno.
  - cbn. now rewrite app_nil_r.
  - cbn [scan_supported filter]. unfold kept_in at 1.
    fold (names_supported sup isa).
    destruct (names_supported sup isa) eqn:N; cbn [andb].
    + rewrite run_bind. unfold usable_in at 1.
      destruct (Hno isa (or_introl eq_refl) N) as [usable R]. rewrite R.
      assert (C : memo_consistent env (after (isa_bool env isa) s))
        by now apply steady_isa_bool.
      rewrite IH; [| exact C |].
      * assert (F : filter (kept_in env (after (isa_bool env isa) s) sup) rest
                    = filter (kept_in env s sup) rest).
        { apply filter_ext. intros d. unfold kept_in. f_equal.
          now apply usable_in_steady. }
        rewrite F. destruct usable; [| reflexivity].
        now rewrite <- app_assoc.
      * intros d Hd Nd. destruct (Hno d (or_intror Hd) Nd) as [b Rb].
        exists b. rewrite <- Rb.
        apply (steady_run env); auto using steady_isa_bool.
    + apply IH; [exact Hs |]. intros d Hd. apply Hno. now right.
Qed.

Lemma scan_cpuinfo_elements lines :
  forall isa_list isa,
    In isa (scan_cpuinfo lines isa_list) ->
    In isa isa_list \/ isa = VecZVECTOR.
Proof.
  induction lines as [| line rest IH]; intros isa_list isa; cbn.
  - auto.
  - destruct (Re.match_features line) as [group |]; [| apply IH].
    destruct (Re.search_vxe group); cbn; [| apply IH].
    intros H. apply IH in H. destruct H as [H | H]; [| auto].
    apply in_app_or in H. destruct H as [H | [H | []]]; auto.
Qed.

(** Reading the platform tests. *)
Lemma linux_or_win32_not_apple :
  PyStr.mem (sys_platform env) ["linux"; "win32"] = true ->
  is_apple_arm env = false.
Proof.
  unfold is_apple_arm, PyStr.mem. cbn.
  destruct (String.eqb_spec (sys_platform env) "linux") as [-> |];
    [reflexivity |].
  destruct (String.eqb_spec (sys_platform env) "win32") as [-> |];
    [reflexivity | discriminate].
Qed.

End ValidList.

Section ValidListShape.

Variable env : Env.

(** In a consistent state the cached list is what the body would
    compute there. *)
Lemma valid_vec_isa_list_unfold s :
  memo_consistent env s ->
  run (valid_vec_isa_list env) s = run (valid_vec_isa_list_body env) s.
Proof.
  intros Hs.
  destruct (steady_valid_vec_isa_list env s Hs) as [-> _].
  destruct (steady_valid_vec_isa_list_body env s Hs) as [-> _].
  apply run_lru_fresh. reflexivity.
Qed.

Lemma x86_isa_checker_total s :
  exists sup, run (x86_isa_checker env) s = Ok sup.
Proof.
  unfold x86_isa_checker.
  destruct (negb (platform_machine env =? "x86_64")%string
            && negb (platform_machine env =? "AMD64")%string);
    eexists; reflexivity.
Qed.

Lemma valid_list_shape s l :
  memo_consistent env s ->
  run (valid_vec_isa_list env) s = Ok l ->
  list_shape env s l.
Proof.
  intros Hs. rewrite valid_vec_isa_list_unfold by exact Hs.
  unfold valid_vec_isa_list_body.
  destruct (PyStr.mem (sys_platform env) ["linux"; "win32"]) eqn:P;
    cbn [negb].
  2:{ intros [= <-]. apply shape_other_platform; [exact P |].
      destruct (is_apple_arm env); reflexivity. }
  rewrite (linux_or_win32_not_apple env P).
  destruct (String.eqb_spec (platform_machine env) "s390x") as [Z | _].
  { rewrite run_bind, run_perform.
    destruct (proc_cpuinfo env) as [content | e] eqn:C; [| discriminate].
    intros [= <-]. now apply shape_s390x with content. }
  destruct (String.eqb_spec (platform_machine env) "aarch64") as [Z | _].
  { intros [= <-]. now apply shape_aarch64. }
  destruct (PyStr.mem (platform_machine env) ["x86_64"; "AMD64"]) eqn:X.
  2:{ intros [= <-]. now apply shape_unknown_machine. }
  rewrite run_bind.
  destruct (x86_isa_checker_total s) as [sup R]. rewrite R.
  intros H.
  assert (C : memo_consistent env (after (x86_isa_checker env) s)).
  { apply oblivious_steady; auto using oblivious_x86_isa_checker. }
  apply scan_supported_sound in H; [| exact C].
  apply shape_x86 with sup; auto.
  rewrite H. cbn [app]. apply filter_ext. intros d. unfold kept_in.
  f_equal. now apply usable_in_steady.
Qed.

(** On the x86 branch, when no [bool] raises, the list is the filtered
    catalogue. *)
Lemma valid_list_x86 s sup :
  memo_consistent env s ->
  PyStr.mem (sys_platform env) ["linux"; "win32"] = true ->
  PyStr.mem (platform_machine env) ["x86_64"; "AMD64"] = true ->
  run (x86_isa_checker env) s = Ok sup ->
  (forall isa, In isa supported_vec_isa_list ->
               names_supported sup isa = true ->
               exists b, run (isa_bool env isa) s = Ok b) ->
  run (valid_vec_isa_list env) s
  = Ok (filter (kept_in env s sup) supported_vec_isa_list).
Proof.
  intros Hs P X R Hno. rewrite valid_vec_isa_list_unfold by exact Hs.
  unfold valid_vec_isa_list_body. rewrite P. cbn [negb].
  rewrite (linux_or_win32_not_apple env P).
  assert (N1 : (platform_machine env =? "s390x")%string = false).
  { revert X. unfold PyStr.mem. cbn.
    destruct (String.eqb_spec (platform_machine env) "x86_64") as [-> |];
      [reflexivity |].
    destruct (String.eqb_spec (platform_machine env) "AMD64") as [-> |];
      [reflexivity | discriminate]. }
  assert (N2 : (platform_machine env =? "aarch64")%string = false).
  { revert X. unfold PyStr.mem. cbn.
    destruct (String.eqb_spec (platform_machine env) "x86_64") as [-> |];
      [reflexivity |].
    destruct (String.eqb_spec (platform_machine env) "AMD64") as [-> |];
      [reflexivity | discriminate]. }
  rewrite N1, N2, X, run_bind, R.
  assert (C : memo_consistent env (after (x86_isa_checker env) s)).
  { apply oblivious_steady; auto using oblivious_x86_isa_checker. }
  rewrite scan_supported_complete; [| exact C |].
  - cbn [app]. f_equal. apply filter_ext. intros d. unfold kept_in.
    f_equal. now apply usable_in_steady.
  - intros d Hd Nd. destruct (Hno d Hd Nd) as [b Rb]. exists b.
    rewrite <- Rb. apply (steady_run env); auto using steady_isa_bool.
Qed.

End ValidListShape.

(* ================================================================== *)
(** ** Selection *)
(* ================================================================== *)

Lemma first_of_width_miss width l :
  (forall isa, In isa l -> bit_width isa <> width) ->
  first_of_width width l = invalid_vec_isa.
Proof.
  induction l as [| isa rest IH]; intros H; cbn; [reflexivity |].
  destruct (Z.eqb_spec width (bit_width isa)) as [E | _].
  - exfalso. apply (H isa); [now left | now symmetry].
  - apply IH. intros d Hd. apply H. now right.
Qed.

Lemma first_of_width_hit width before isa rest :
  bit_width isa = width ->
  (forall isa', In isa' before -> bit_width isa' <> width) ->
  first_of_width width (before ++ isa :: rest) = isa.
Proof.
  intros W. induction before as [| d before IH]; intros H; cbn.
  - rewrite W, Z.eqb_refl. reflexivity.
  - destruct (Z.eqb_spec width (bit_width d)) as [E | _].
    + exfalso. apply (H d); [now left | now symmetry].
    + apply IH. intros d' Hd'. apply H. now right.
Qed.

Lemma first_of_width_in width l :
  first_of_width width l = invalid_vec_isa \/ In (first_of_width width l) l.
Proof.
  induction l as [| isa rest IH]; cbn; [now left |].
  destruct (width =? bit_width isa); [right; now left |].
  destruct IH; auto.
Qed.

(** What [pick_vec_isa] returns outside fbcode, from the list it got. *)
Lemma pick_vec_isa_from_list env s l :
  is_fbcode env = false ->
  run (valid_vec_isa_list env) s = Ok l ->
  run (pick_vec_isa env) s
  = Ok (match l with
        | [] => invalid_vec_isa
        | first :: _ =>
            match simdlen env with
            | None => first
            | Some width => first_of_width width l
            end
        end).
Proof.
  intros F R. unfold pick_vec_isa. rewrite F, run_bind, R.
  destruct l as [| first rest]; [reflexivity |].
  destruct (simdlen env); reflexivity.
Qed.

(** Line 357-358: in fbcode the call is a plain return. *)
Lemma pick_vec_isa_fbcode env s :
  is_fbcode env = true -> pick_vec_isa env s = (Ok VecAVX2, s).
Proof. intros F. unfold pick_vec_isa. now rewrite F. Qed.

(** C5.  In fbcode [pick_vec_isa] returns the AVX2 descriptor and does
    nothing else: the state after the call is the state before it, so the
    host was not asked anything, [check_build] did not run, no lock was
    taken and no table was filled. *)
Theorem fbcode_picks_avx2_untouched env s :
  is_fbcode env = true ->
  run (pick_vec_isa env) s = Ok VecAVX2
  /\ bit_width VecAVX2 = 256
  /\ after (pick_vec_isa env) s = s
  /\ trace (after (pick_vec_isa env) s) = trace s.
Proof.
  intros F. unfold run, after. rewrite (pick_vec_isa_fbcode env s F).
  cbn. auto.
Qed.

Lemma fbcode_picks_avx2_untouched_witness :
  is_fbcode Sample.fbcode_host = true
  /\ run (pick_vec_isa Sample.fbcode_host) init_state = Ok VecAVX2
  /\ trace (after (pick_vec_isa Sample.fbcode_host) init_state) = [].
Proof.
  destruct (fbcode_picks_avx2_untouched Sample.fbcode_host init_state eq_refl)
    as (R & _ & _ & T).
  split; [reflexivity |]. split; [exact R | exact T].
Defined.

(** C7, as the code has it.  Outside fbcode, with [config.cpp.simdlen]
    set to [width] and a
    non-empty list of valid descriptors: if no descriptor of the list has
    that bit width, [pick_vec_isa] returns the sentinel; and if one has,
    it returns the first such in the order of the list. *)
Theorem explicit_width_first_match_or_sentinel env s l width :
  is_fbcode env = false ->
  simdlen env = Some width ->
  run (valid_vec_isa_list env) s = Ok l ->
  l <> [] ->
  ((forall isa, In isa l -> bit_width isa <> width) ->
   run (pick_vec_isa env) s = Ok invalid_vec_isa)
  /\ (forall before isa rest,
        l = (before ++ isa :: rest)%list ->
        bit_width isa = width ->
        (forall isa', In isa' before -> bit_width isa' <> width) ->
        run (pick_vec_isa env) s = Ok isa).
Proof.
  intros F W R N.
  rewrite (pick_vec_isa_from_list env s l F R), W.
  destruct l as [| first rest0]; [contradiction |]. split.
  - intros H. now rewrite first_of_width_miss.
  - intros before isa rest E Wd H. rewrite E.
    now rewrite first_of_width_hit.
Qed.

Lemma explicit_width_first_match_or_sentinel_witness :
  run (valid_vec_isa_list Sample.width_999) init_state
  = Ok [VecAMX; VecAVX512; VecAVX2]
  /\ run (pick_vec_isa Sample.width_999) init_state = Ok invalid_vec_isa.
Proof.
  assert (R : run (valid_vec_isa_list Sample.width_999) init_state
              = Ok [VecAMX; VecAVX512; VecAVX2]) by (vm_compute; reflexivity).
  split; [exact R |].
  refine (proj1 (explicit_width_first_match_or_sentinel
                   Sample.width_999 init_state
                   [VecAMX; VecAVX512; VecAVX2] 999 eq_refl eq_refl R _) _).
  - discriminate.
  - intros isa [<- | [<- | [<- | []]]]; cbn; lia.
Defined.

(** C7, as the specification has it, fails in fbcode: there the list of
    valid descriptors is not consulted, and with 999 bits requested and
    a non-empty list none of whose descriptors has that width,
    [pick_vec_isa] returns the AVX2 descriptor, not the sentinel. *)
Lemma fbcode_ignores_explicit_width :
  is_fbcode Sample.fbcode_width_999 = true
  /\ simdlen Sample.fbcode_width_999 = Some 999
  /\ run (valid_vec_isa_list Sample.fbcode_width_999) init_state
     = Ok [VecAVX512; VecAVX2]
  /\ bit_width VecAVX512 <> 999
  /\ bit_width VecAVX2 <> 999
  /\ run (pick_vec_isa Sample.fbcode_width_999) init_state = Ok VecAVX2
  /\ run (pick_vec_isa Sample.fbcode_width_999) init_state
     <> Ok invalid_vec_isa.
Proof.
  repeat split; try (vm_compute; discriminate); vm_compute; reflexivity.
Qed.

(** The names line 350 looks up for each descriptor of the catalogue. *)
Lemma names_supported_catalogue sup :
  names_supported sup VecAMX
  = PyStr.mem "avx512" sup && PyStr.mem "amx_tile" sup
  /\ names_supported sup VecAVX512 = PyStr.mem "avx512" sup
  /\ names_supported sup VecAVX2 = PyStr.mem "avx2" sup
  /\ names_supported sup VecNEON = PyStr.mem "asimd" sup.
Proof.
  unfold names_supported.
  change (PyStr.split (str VecAMX)) with ["avx512"; "amx_tile"].
  change (PyStr.split (str VecAVX512)) with ["avx512"].
  change (PyStr.split (str VecAVX2)) with ["avx2"].
  change (PyStr.split (str VecNEON)) with ["asimd"].
  cbn [forallb]. now rewrite !andb_true_r.
Qed.

(** When the matrix-tile descriptor is valid it heads the list. *)
Lemma valid_list_amx_first env s l :
  memo_consistent env s ->
  run (valid_vec_isa_list env) s = Ok l ->
  In VecAMX l ->
  exists rest, l = VecAMX :: rest.
Proof.
  intros Hs R HIn.
  destruct (valid_list_shape env s l Hs R)
    as [_ E | content _ _ E | _ E | sup _ _ _ E | E]; subst l.
  - destruct (is_apple_arm env); cbn in HIn; intuition discriminate.
  - apply scan_cpuinfo_elements in HIn. cbn in HIn. intuition discriminate.
  - cbn in HIn. intuition discriminate.
  - unfold supported_vec_isa_list in *. cbn [filter] in *.
    destruct (kept_in env s sup VecAMX); [eexists; reflexivity |].
    exfalso.
    change (In VecAMX (filter (kept_in env s sup)
                              [VecAVX512; VecAVX2; VecNEON])) in HIn.
    apply filter_In in HIn. destruct HIn as [HIn _].
    cbn in HIn. intuition discriminate.
  - destruct HIn.
Qed.



(* ================================================================== *)
(** ** What a run adds to the trace *)
(* ================================================================== *)

Lemma emits_ret {A} P (a : A) : emits P (ret a).
Proof. intros s. exists []. cbn. now rewrite app_nil_r. Qed.

Lemma emits_lift {A} P (r : result A) : emits P (lift r).
Proof. intros s. exists []. cbn. now rewrite app_nil_r. Qed.

Lemma emits_perform {A} (P : event -> Prop) ev (r : result A) :
  P ev -> emits P (perform ev r).
Proof. intros H s. exists [ev]. cbn. auto. Qed.

Lemma emits_bind {A B} P (m : M A) (k : A -> M B) :
  emits P m -> (forall a, emits P (k a)) -> emits P (bind m k).
Proof.
  intros Hm Hk s. rewrite after_bind.
  destruct (Hm s) as (evs1 & E1 & F1).
  destruct (run m s) as [a | e]; [| now exists evs1].
  destruct (Hk a (after m s)) as (evs2 & E2 & F2).
  exists (evs1 ++ evs2)%list. rewrite E2, E1, app_assoc. split; [reflexivity |].
  apply Forall_app. auto.
Qed.

Lemma emits_try_except {A} P (m : M A) (h : exn -> M A) :
  emits P m -> (forall e, emits P (h e)) -> emits P (try_except m h).
Proof.
  intros Hm Hh s. rewrite after_try_except.
  destruct (Hm s) as (evs1 & E1 & F1).
  destruct (run m s) as [a | e]; [now exists evs1 |].
  destruct (Hh e (after m s)) as (evs2 & E2 & F2).
  exists (evs1 ++ evs2)%list. rewrite E2, E1, app_assoc. split; [reflexivity |].
  apply Forall_app. auto.
Qed.

Lemma emits_finally {A} (P : event -> Prop) (m : M A) ev :
  emits P m -> P ev -> emits P (finally m ev).
Proof.
  intros Hm Hev s. rewrite after_finally.
  destruct (Hm s) as (evs & E & F).
  exists (evs ++ [ev])%list. cbn. rewrite E, app_assoc. split; [reflexivity |].
  apply Forall_app. auto.
Qed.

Lemma emits_if {A} P (b : bool) (m1 m2 : M A) :
  emits P m1 -> emits P m2 -> emits P (if b then m1 else m2).
Proof. destruct b; auto. Qed.

Create HintDb emits.
#[export] Hint Resolve emits_ret emits_lift emits_perform emits_bind
  emits_try_except emits_finally emits_if : emits.

Lemma check_output_not_a_write ev : is_check_output ev -> not_a_write ev.
Proof. intros [args ->] code ext extra. discriminate. Qed.

Section Fingerprint.

Variable env : Env.

Lemma get_compiler_version_info_total compiler s :
  exists v, run (get_compiler_version_info env compiler) s = Ok v.
Proof.
  unfold get_compiler_version_info, run_check_output.
  rewrite run_bind, run_try_except, run_bind, run_perform.
  destruct (check_output env [compiler; "-v"]) as [v | e].
  - cbn. eexists; reflexivity.
  - rewrite run_try_except, run_bind, run_perform.
    destruct (check_output env [compiler; "--version"]) as [v | e'];
      cbn; eexists; reflexivity.
Qed.

Lemma get_compiler_version_info_emits compiler :
  emits is_check_output (get_compiler_version_info env compiler).
Proof.
  unfold get_compiler_version_info, run_check_output.
  assert (H : forall args, is_check_output (EvCheckOutput args))
    by (intros args; now exists args).
  apply emits_bind.
  - auto 10 with emits.
  - intros [v |]; auto with emits.
Qed.

Lemma fingerprint_run flags s v :
  run (get_compiler_version_info env (cpp_compiler env)) s = Ok v ->
  run (_get_isa_dry_compile_fingerprint env flags) s
  = Ok (v ++ "=" ++ flags ++ "=" ++ torch_version env).
Proof.
  intros R. unfold _get_isa_dry_compile_fingerprint.
  now rewrite run_bind, R.
Qed.

Lemma fingerprint_emits flags :
  emits is_check_output (_get_isa_dry_compile_fingerprint env flags).
Proof.
  unfold _get_isa_dry_compile_fingerprint.
  apply emits_bind; [apply get_compiler_version_info_emits |].
  intros v. apply emits_ret.
Qed.

End Fingerprint.

Lemma length_append_string (a b : string) :
  String.length (a ++ b) = (String.length a + String.length b)%nat.
Proof. induction a as [| c a IH]; cbn; [reflexivity | now rewrite IH]. Qed.

Lemma append_cancel_r (a b c : string) : a ++ c = b ++ c -> a = b.
Proof.
  revert b. induction a as [| x a IH]; intros [| y b] H; cbn in H.
  - reflexivity.
  - apply (f_equal String.length) in H. cbn in H.
    rewrite length_append_string in H. lia.
  - apply (f_equal String.length) in H. cbn in H.
    rewrite length_append_string in H. lia.
  - injection H as -> H. f_equal. now apply IH.
Qed.

(** C9.  [check_build] calls [write] once, after having asked the
    compiler for its version, and the [extra] it passes is the compiler
    version string, the descriptor's architecture flags and
    [torch.__version__] joined by equals signs.  Two environments with
    the same torch version whose compilers answer differently therefore
    give different fingerprints for the same flags. *)
Theorem fingerprint_is_compiler_flags_torch env self code s :
  (exists compiler_info before rest,
     run (get_compiler_version_info env (cpp_compiler env)) s
     = Ok compiler_info
     /\ trace (after (check_build env self code) s)
        = (trace s ++ before
           ++ EvWrite code "cpp"
                (compiler_info ++ "=" ++ _arch_flags env self
                 ++ "=" ++ torch_version env)
           :: rest)%list
     /\ Forall not_a_write before
     /\ Forall not_a_write rest)
  /\ (forall env' s' flags,
        torch_version env' = torch_version env ->
        run (get_compiler_version_info env' (cpp_compiler env')) s'
        <> run (get_compiler_version_info env (cpp_compiler env)) s ->
        run (_get_isa_dry_compile_fingerprint env' flags) s'
        <> run (_get_isa_dry_compile_fingerprint env flags) s).
Proof.
  destruct (get_compiler_version_info_total env (cpp_compiler env) s)
    as [v Rv].
  split.
  - exists v.
    destruct (fingerprint_emits env (_arch_flags env self) s)
      as (before & Eb & Fb).
    exists before.
    unfold check_build. rewrite after_bind.
    rewrite (fingerprint_run env (_arch_flags env self) s v Rv).
    rewrite after_bind, run_perform, after_perform.
    set (s1 := log _ _).
    assert (T1 : trace s1
                 = (trace s ++ before
                    ++ [EvWrite code "cpp"
                          (v ++ "=" ++ _arch_flags env self
                           ++ "=" ++ torch_version env)])%list).
    { subst s1. cbn. rewrite Eb. now rewrite <- app_assoc. }
    destruct (write env code "cpp" _) as [written | e].
    + match goal with
      | |- context [after ?m s1] =>
          assert (Hm : emits not_a_write m)
      end.
      { assert (N1 : forall p, not_a_write (EvLockAcquire p))
          by (intros p c1 c2 c3; discriminate).
        assert (N2 : forall p, not_a_write (EvLockRelease p))
          by (intros p c1 c2 c3; discriminate).
        assert (N3 : forall b, not_a_write (EvBuild b))
          by (intros b c1 c2 c3; discriminate).
        assert (N4 : forall a, not_a_write (EvCheckCall a))
          by (intros a c1 c2 c3; discriminate).
        unfold with_lock. auto 20 with emits. }
      destruct (Hm s1) as (rest & Er & Fr).
      exists rest. split; [exact Rv |]. split.
      * rewrite Er, T1. rewrite <- !app_assoc. reflexivity.
      * split; [| exact Fr].
        eapply Forall_impl; [| exact Fb].
        apply check_output_not_a_write.
    + exists []. split; [exact Rv |]. split; [exact T1 |].
      split; [| constructor].
      eapply Forall_impl; [| exact Fb].
      apply check_output_not_a_write.
  - intros env' s' flags Tv Hne.
    destruct (get_compiler_version_info_total env' (cpp_compiler env') s')
      as [v' Rv'].
    rewrite (fingerprint_run env flags s v Rv).
    rewrite (fingerprint_run env' flags s' v' Rv').
    rewrite Rv, Rv' in Hne. rewrite Tv. intros [= E].
    apply append_cancel_r in E. congruence.
Qed.

Lemma fingerprint_is_compiler_flags_torch_witness :
  torch_version Sample.haswell_upgraded = torch_version Sample.haswell
  /\ run (_get_isa_dry_compile_fingerprint Sample.haswell_upgraded
            "-mavx2 -mfma -mf16c") init_state
     <> run (_get_isa_dry_compile_fingerprint Sample.haswell
               "-mavx2 -mfma -mf16c") init_state.
Proof.
  split; [reflexivity |].
  apply (proj2 (fingerprint_is_compiler_flags_torch
                  Sample.haswell VecAVX2 _avx_code init_state)
               Sample.haswell_upgraded init_state "-mavx2 -mfma -mf16c"
               eq_refl).
  vm_compute. discriminate.
Defined.

(* ================================================================== *)
(** ** The dry compile *)
(* ================================================================== *)

Lemma check_build_run_any env self code s s' :
  run (check_build env self code) s = run (check_build env self code) s'.
Proof. apply (oblivious_check_build env self code). Qed.

(** C3, as the code has it.  A failure of [write] or of entering the
    lock, its timeout included, leaves [check_build] as the exception it
    is.  Once the source is written, the lock held and the builder made,
    [check_build] returns a boolean: [True] exactly when the target path
    is obtained, the artifact exists or is built, and the subprocess that
    loads it exits cleanly; [False] when any of these three fails. *)
Theorem check_build_outcomes env self code s extra :
  run (_get_isa_dry_compile_fingerprint env (_arch_flags env self)) s
  = Ok extra ->
  (forall e,
     write env code "cpp" extra = Raise e ->
     run (check_build env self code) s = Raise e)
  /\ (forall key input_path lock_dir e,
        write env code "cpp" extra = Ok (key, input_path) ->
        get_lock_dir env = Ok lock_dir ->
        lock_enter env (path_join env lock_dir (key ++ ".lock")) = Raise e ->
        run (check_build env self code) s = Raise e)
  /\ (forall key input_path lock_dir,
        write env code "cpp" extra = Ok (key, input_path) ->
        get_lock_dir env = Ok lock_dir ->
        lock_enter env (path_join env lock_dir (key ++ ".lock")) = Ok tt ->
        new_builder env (builder_of env self key input_path) = Ok tt ->
        exists ok,
          run (check_build env self code) s = Ok ok
          /\ (ok = true <->
              exists output_path,
                get_target_file_path env (builder_of env self key input_path)
                = Ok output_path
                /\ (path_isfile env output_path = true
                    \/ build env (builder_of env self key input_path) = Ok tt)
                /\ check_call env (load_args env output_path) = Ok tt)).
Proof.
  intros Rf. unfold check_build. rewrite run_bind, Rf.
  rewrite run_bind, run_perform. split; [| split].
  - intros e W. now rewrite W.
  - intros key input_path lock_dir e W D L. rewrite W. cbn [fst snd].
    rewrite run_bind, run_lift, D. unfold with_lock.
    now rewrite run_bind, run_perform, L.
  - intros key input_path lock_dir W D L B. rewrite W. cbn [fst snd].
    rewrite run_bind, run_lift, D. unfold with_lock.
    rewrite run_bind, run_perform, L, run_finally.
    fold (builder_of env self key input_path).
    rewrite run_bind, run_lift, B, run_try_except, run_bind, run_lift.
    destruct (get_target_file_path env (builder_of env self key input_path))
      as [output_path | e] eqn:T.
    2:{ exists false. split; [reflexivity |].
        split; [discriminate | intros (p & [=] & _)]. }
    fold (load_args env output_path).
    rewrite run_bind.
    destruct (path_isfile env output_path) eqn:I; cbn [negb].
    + rewrite run_ret, run_bind, run_perform.
      destruct (check_call env (load_args env output_path)) as [[] | e] eqn:C.
      * exists true. split; [reflexivity |]. split; [| reflexivity].
        intros _. exists output_path. auto.
      * exists false. split; [reflexivity |].
        split; [discriminate |].
        intros (p & [= <-] & _ & C'). congruence.
    + rewrite run_perform.
      destruct (build env (builder_of env self key input_path))
        as [[] | e] eqn:Bd.
      * rewrite run_bind, run_perform.
        destruct (check_call env (load_args env output_path))
          as [[] | e] eqn:C.
        -- exists true. split; [reflexivity |]. split; [| reflexivity].
           intros _. exists output_path. auto.
        -- exists false. split; [reflexivity |].
           split; [discriminate |].
           intros (p & [= <-] & _ & C'). congruence.
      * exists false. split; [reflexivity |].
        split; [discriminate |].
        intros (p & [= <-] & [I' | Bd'] & _); congruence.
Qed.

Lemma check_build_outcomes_witness :
  run (check_build Sample.auto_no_tiles VecAMX _amx_code) init_state
  = Ok false
  /\ run (check_build Sample.auto_no_tiles VecAVX512 _avx_code) init_state
     = Ok true.
Proof.
  split.
  - destruct (proj2 (proj2 (check_build_outcomes
                              Sample.auto_no_tiles VecAMX _amx_code init_state
                              _ eq_refl))
                    _ _ _ eq_refl eq_refl eq_refl eq_refl) as (ok & R & Hok).
    rewrite R. destruct ok; [| reflexivity].
    destruct (proj1 Hok eq_refl) as (p & [= <-] & [I | B] & _);
      vm_compute in I || vm_compute in B; discriminate.
  - destruct (proj2 (proj2 (check_build_outcomes
                              Sample.auto_no_tiles VecAVX512 _avx_code
                              init_state _ eq_refl))
                    _ _ _ eq_refl eq_refl eq_refl eq_refl) as (ok & R & Hok).
    rewrite R. f_equal. apply Hok. eexists.
    split; [reflexivity |]. split; [right |]; reflexivity.
Defined.

(** C3, as the specification has it, fails: when the probe source cannot
    be written, or the lock is not obtained within the timeout,
    [check_build] does not return [False], it raises. *)
Lemma check_build_raises_outside_try :
  run (check_build Sample.read_only_cache VecAVX2 _avx_code) init_state
  = Raise OSError
  /\ run (check_build Sample.read_only_cache VecAVX2 _avx_code) init_state
     <> Ok false
  /\ run (check_build Sample.contended_lock VecAVX2 _avx_code) init_state
     = Raise LockTimeout
  /\ run (check_build Sample.contended_lock VecAVX2 _avx_code) init_state
     <> Ok false.
Proof.
  assert (A : run (check_build Sample.read_only_cache VecAVX2 _avx_code)
                  init_state = Raise OSError) by (vm_compute; reflexivity).
  assert (B : run (check_build Sample.contended_lock VecAVX2 _avx_code)
                  init_state = Raise LockTimeout) by (vm_compute; reflexivity).
  rewrite A, B. repeat split; discriminate.
Qed.

(* ================================================================== *)
(** ** Usability *)
(* ================================================================== *)

Lemma trace_lru {A} find enter (body : M A) s :
  (forall a s', trace (enter a s') = trace s') ->
  trace (after (lru_cache find enter body) s)
  = match find s with
    | Some _ => trace s
    | None => trace (after body s)
    end.
Proof.
  intros He. unfold after, lru_cache.
  destruct (find s); [reflexivity |].
  destruct (body s) as [[a | e] s']; cbn; auto.
Qed.

Lemma trace_VecISA_bool env self s :
  trace (after (VecISA_bool env self) s)
  = match memo_lookup self (bool_memo s) with
    | Some _ => trace s
    | None => trace (after (VecISA_bool_body env self) s)
    end.
Proof. unfold VecISA_bool. now rewrite trace_lru. Qed.

Lemma trace_VecAMX_bool env s :
  trace (after (VecAMX_bool env) s)
  = match amx_memo s with
    | Some _ => trace s
    | None => trace (after (VecAMX_bool_body env) s)
    end.
Proof. unfold VecAMX_bool. now rewrite trace_lru. Qed.

(** [VecISA.__bool__] in a reachable state, by the branch its body
    takes. *)
Lemma VecISA_bool_run env self s :
  memo_consistent env s ->
  run (VecISA_bool env self) s
  = match vec_isa_ok env with
    | Some forced => Ok forced
    | None => if is_fbcode env then Ok true
              else run (check_build env self _avx_code) s
    end.
Proof.
  intros Hs. destruct (steady_VecISA_bool env self s Hs) as [-> _].
  unfold VecISA_bool. rewrite run_lru_fresh by reflexivity.
  unfold VecISA_bool_body.
  destruct (vec_isa_ok env); [reflexivity |].
  destruct (is_fbcode env); [reflexivity |].
  apply check_build_run_any.
Qed.

(** [VecAMX.__bool__] in a reachable state. *)
Lemma VecAMX_bool_run env s :
  memo_consistent env s ->
  run (VecAMX_bool env) s
  = match run (VecISA_bool env VecAMX) s with
    | Ok true =>
        if is_fbcode env then Ok false
        else match run (check_build env VecAMX _amx_code) s with
             | Ok true => Ok (_init_amx env)
             | Ok false => Ok false
             | Raise e => Raise e
             end
    | Ok false => Ok false
    | Raise e => Raise e
    end.
Proof.
  intros Hs. destruct (steady_VecAMX_bool env s Hs) as [-> _].
  destruct (steady_VecISA_bool env VecAMX s Hs) as [-> _].
  unfold VecAMX_bool. rewrite run_lru_fresh by reflexivity.
  unfold VecAMX_bool_body. rewrite run_bind.
  destruct (run (VecISA_bool env VecAMX) init_state) as [[|] | e];
    try reflexivity.
  destruct (is_fbcode env); [reflexivity |].
  rewrite run_bind.
  rewrite (check_build_run_any env VecAMX _amx_code _ s).
  destruct (run (check_build env VecAMX _amx_code) s) as [[|] | e];
    try reflexivity.
  rewrite run_bind, run_perform. destruct (_init_amx env); reflexivity.
Qed.

(** [VecISA.__bool__] when its body returns [v] without doing anything:
    a value in the table wins, otherwise [v] is returned and entered. *)
Lemma VecISA_bool_of_ret env isa s v :
  VecISA_bool_body env isa = ret v ->
  VecISA_bool env isa s
  = match memo_lookup isa (bool_memo s) with
    | Some b => (Ok b, s)
    | None => (Ok v, set_bool_memo isa v s)
    end.
Proof.
  intros B. unfold VecISA_bool, lru_cache. rewrite B.
  now destruct (memo_lookup isa (bool_memo s)).
Qed.

(** [VecAMX.__bool__] on a state whose table has no entry for it, from
    what [super().__bool__()] comes to. *)
Lemma VecAMX_bool_after_base env s base s1 :
  amx_memo s = None ->
  VecISA_bool env VecAMX s = (Ok base, s1) ->
  run (VecAMX_bool env) s
  = (if base then
       if is_fbcode env then Ok false
       else match run (check_build env VecAMX _amx_code) s1 with
            | Ok true => Ok (_init_amx env)
            | Ok false => Ok false
            | Raise e => Raise e
            end
     else Ok false)
  /\ (base = false \/ is_fbcode env = true ->
      trace (after (VecAMX_bool env) s) = trace s1).
Proof.
  intros A B. unfold VecAMX_bool, lru_cache, run, after. rewrite A.
  unfold VecAMX_bool_body, bind. rewrite B.
  destruct base; [| split; reflexivity].
  destruct (is_fbcode env); [split; reflexivity |].
  split; [| intros [H | H]; discriminate H].
  destruct (check_build env VecAMX _amx_code s1) as [[[|] | e] s2]; cbn;
    try reflexivity.
  now destruct (_init_amx env).
Qed.

(** C2, as the code has it.  With [config.cpp.vec_isa_ok] set to
    [forced], for a descriptor whose [bool] is not yet in the table of
    [lru_cache]: [bool] of the AVX-512, AVX2, NEON and ZVECTOR
    descriptors is [forced], and evaluating it performs no external
    action at all; the matrix-tile descriptor takes [forced] (or the
    value already in the table of [VecISA.__bool__]) only as the outcome
    of the check it inherits: when that is false it is unusable without
    any external action, and when it is true it still runs its own dry
    compile and the tile enabling, outside fbcode, and is unusable in
    fbcode.  A value already in the table is returned as it is, whatever
    the configuration says by now.  The sentinel is never usable. *)
Theorem forced_usability env s forced :
  vec_isa_ok env = Some forced ->
  (forall isa,
     isa = VecAVX512 \/ isa = VecAVX2 \/ isa = VecNEON \/ isa = VecZVECTOR ->
     (memo_lookup isa (bool_memo s) = None ->
      run (isa_bool env isa) s = Ok forced
      /\ trace (after (isa_bool env isa) s) = trace s)
     /\ (forall b, memo_lookup isa (bool_memo s) = Some b ->
                   isa_bool env isa s = (Ok b, s)))
  /\ (amx_memo s = None ->
      forall base,
        base = match memo_lookup VecAMX (bool_memo s) with
               | Some b => b
               | None => forced
               end ->
        run (isa_bool env VecAMX) s
        = (if base then
             if is_fbcode env then Ok false
             else match run (check_build env VecAMX _amx_code) s with
                  | Ok true => Ok (_init_amx env)
                  | Ok false => Ok false
                  | Raise e => Raise e
                  end
           else Ok false)
        /\ (base = false ->
            trace (after (isa_bool env VecAMX) s) = trace s))
  /\ (forall b, amx_memo s = Some b -> isa_bool env VecAMX s = (Ok b, s))
  /\ run (isa_bool env InvalidVecISA) s = Ok false.
Proof.
  intros Hok.
  assert (Body : forall isa, VecISA_bool_body env isa = ret forced)
    by (intros isa; unfold VecISA_bool_body; now rewrite Hok).
  assert (Base : forall isa,
             (memo_lookup isa (bool_memo s) = None ->
              run (VecISA_bool env isa) s = Ok forced
              /\ trace (after (VecISA_bool env isa) s) = trace s)
             /\ (forall b, memo_lookup isa (bool_memo s) = Some b ->
                           VecISA_bool env isa s = (Ok b, s))).
  { intros isa. unfold run, after.
    rewrite (VecISA_bool_of_ret env isa s forced (Body isa)).
    split; [intros -> | intros b ->]; auto. }
  split; [| split; [| split]].
  - intros isa [-> | [-> | [-> | ->]]]; apply Base.
  - intros A base Eb. cbn [isa_bool].
    assert (B : exists s1,
               VecISA_bool env VecAMX s = (Ok base, s1)
               /\ trace s1 = trace s).
    { rewrite (VecISA_bool_of_ret env VecAMX s forced (Body VecAMX)), Eb.
      destruct (memo_lookup VecAMX (bool_memo s));
        eexists; split; reflexivity. }
    destruct B as (s1 & B & T).
    destruct (VecAMX_bool_after_base env s base s1 A B) as [R Tr].
    rewrite R, (check_build_run_any env VecAMX _amx_code s1 s).
    split; [reflexivity |]. intros ->. rewrite Tr by now left. exact T.
  - intros b A. cbn [isa_bool]. unfold VecAMX_bool, lru_cache.
    now rewrite A.
  - reflexivity.
Qed.

Lemma forced_usability_witness :
  vec_isa_ok Sample.forced_off = Some false
  /\ run (isa_bool Sample.forced_off VecAVX512) init_state = Ok false
  /\ trace (after (isa_bool Sample.forced_off VecAVX512) init_state) = [].
Proof.
  split; [reflexivity |].
  exact (proj1 (proj1 (forced_usability Sample.forced_off init_state false
                         eq_refl)
                      VecAVX512 (or_introl eq_refl))
               eq_refl).
Defined.

(** C2, as the specification has it, fails for the matrix-tile
    descriptor: with usability forced to true it still writes its probe,
    takes the lock and runs the build, and when that build fails it is
    not usable. *)
Lemma forced_true_amx_still_probes :
  vec_isa_ok Sample.forced_no_tiles = Some true
  /\ run (isa_bool Sample.forced_no_tiles VecAMX) init_state = Ok false
  /\ run (isa_bool Sample.forced_no_tiles VecAMX) init_state <> Ok true
  /\ existsb is_write
       (trace (after (isa_bool Sample.forced_no_tiles VecAMX) init_state))
     = true
  /\ existsb is_lock_acquire
       (trace (after (isa_bool Sample.forced_no_tiles VecAMX) init_state))
     = true.
Proof.
  assert (A : run (isa_bool Sample.forced_no_tiles VecAMX) init_state
              = Ok false) by (vm_compute; reflexivity).
  rewrite A. repeat split; try discriminate; vm_compute; reflexivity.
Qed.

(* ================================================================== *)
(** ** The s390x branch *)
(* ================================================================== *)

Lemma scan_cpuinfo_no_vxe lines :
  (forall line group, In line lines ->
                      Re.match_features line = Some group ->
                      Re.search_vxe group = false) ->
  forall isa_list, scan_cpuinfo lines isa_list = isa_list.
Proof.
  induction lines as [| line rest IH]; intros H isa_list; cbn;
    [reflexivity |].
  assert (IH' := IH (fun l g Hl => H l g (or_intror Hl))).
  destruct (Re.match_features line) as [group |] eqn:E; [| apply IH'].
  rewrite (H line group (or_introl eq_refl) E). cbn. apply IH'.
Qed.

(** A successful search has found the letters vxe. *)
Lemma search_vxe_contains group :
  Re.search_vxe group = true -> PyStr.contains "vxe" group = true.
Proof.
  induction group as [| c rest IH]; [discriminate |].
  cbn [Re.search_vxe].
  destruct (PyStr.strip_prefix "vxe" rest) as [tail |] eqn:P.
  - intros _. change (PyStr.contains "vxe" (String c rest))
      with (match PyStr.strip_prefix "vxe" (String c rest) with
            | Some _ => true
            | None => PyStr.contains "vxe" rest
            end).
    destruct (PyStr.strip_prefix "vxe" (String c rest)); [reflexivity |].
    destruct rest as [| d rest']; [discriminate |].
    cbn [PyStr.contains]. now rewrite P.
  - intros H. apply IH in H.
    change (PyStr.contains "vxe" (String c rest))
      with (match PyStr.strip_prefix "vxe" (String c rest) with
            | Some _ => true
            | None => PyStr.contains "vxe" rest
            end).
    now destruct (PyStr.strip_prefix "vxe" (String c rest)).
Qed.

(** C4, as the code has it.  On s390x, when /proc/cpuinfo can be read
    and none of its lines has a features entry with the vxe token,
    [valid_vec_isa_list] returns the empty list; when the file cannot be
    opened, on Linux, the exception of [open] leaves the function. *)
Theorem s390x_without_vxe env s :
  reachable env s ->
  platform_machine env = "s390x" ->
  is_apple_arm env = false ->
  (forall content,
     proc_cpuinfo env = Ok content ->
     no_vxe_feature content ->
     run (valid_vec_isa_list env) s = Ok [])
  /\ (forall e,
        PyStr.mem (sys_platform env) ["linux"; "win32"] = true ->
        proc_cpuinfo env = Raise e ->
        run (valid_vec_isa_list env) s = Raise e).
Proof.
  intros Hr Z A. assert (Hs := reachable_consistent env s Hr).
  rewrite valid_vec_isa_list_unfold by exact Hs.
  unfold valid_vec_isa_list_body. rewrite A, Z, String.eqb_refl.
  cbv zeta. split.
  - intros content C N.
    destruct (PyStr.mem (sys_platform env) ["linux"; "win32"]);
      cbn [negb]; [| reflexivity].
    rewrite run_bind, run_perform, C.
    now rewrite scan_cpuinfo_no_vxe.
  - intros e P C. rewrite P. cbn [negb].
    now rewrite run_bind, run_perform, C.
Qed.

Lemma s390x_without_vxe_witness :
  run (valid_vec_isa_list (Sample.mainframe (Ok Sample.cpuinfo_z13)))
      init_state
  = Ok [].
Proof.
  refine (proj1 (s390x_without_vxe (Sample.mainframe (Ok Sample.cpuinfo_z13))
                   init_state (reach_init _) eq_refl eq_refl)
                Sample.cpuinfo_z13 eq_refl _).
  intros line group HIn. vm_compute in HIn.
  destruct HIn as [<- | [<- | []]]; vm_compute; intros [= <-]; reflexivity.
Defined.

(** C4, as the specification has it, fails: on s390x a missing
    /proc/cpuinfo makes [valid_vec_isa_list], and [pick_vec_isa] with
    it, raise. *)
Lemma s390x_missing_cpuinfo_raises :
  platform_machine (Sample.mainframe (Raise FileNotFoundError)) = "s390x"
  /\ run (valid_vec_isa_list (Sample.mainframe (Raise FileNotFoundError)))
         init_state
     = Raise FileNotFoundError
  /\ run (valid_vec_isa_list (Sample.mainframe (Raise FileNotFoundError)))
         init_state
     <> Ok []
  /\ run (pick_vec_isa (Sample.mainframe (Raise FileNotFoundError)))
         init_state
     = Raise FileNotFoundError.
Proof.
  repeat split; try (vm_compute; discriminate); vm_compute; reflexivity.
Qed.

(* ================================================================== *)
(** ** What stands behind a selected descriptor *)
(* ================================================================== *)

(** Why [bool(isa)] is true when it is. *)
Lemma isa_bool_true_cause env s isa :
  memo_consistent env s ->
  run (isa_bool env isa) s = Ok true ->
  isa <> InvalidVecISA
  /\ (vec_isa_ok env = Some true
      \/ (vec_isa_ok env = None
          /\ (is_fbcode env = true
              \/ run (check_build env isa _avx_code) s = Ok true)))
  /\ (isa = VecAMX ->
      is_fbcode env = false
      /\ run (check_build env VecAMX _amx_code) s = Ok true
      /\ _init_amx env = true).
Proof.
  intros Hs.
  assert (Base : forall d,
             run (VecISA_bool env d) s = Ok true ->
             vec_isa_ok env = Some true
             \/ (vec_isa_ok env = None
                 /\ (is_fbcode env = true
                     \/ run (check_build env d _avx_code) s = Ok true))).
  { intros d. rewrite VecISA_bool_run by exact Hs.
    destruct (vec_isa_ok env) as [forced |].
    - intros [= ->]. now left.
    - right. split; [reflexivity |].
      destruct (is_fbcode env); auto. }
  destruct isa; cbn [isa_bool]; intros R;
    try (split; [discriminate | split; [now apply Base | discriminate]]).
  - rewrite VecAMX_bool_run in R by exact Hs.
    destruct (run (VecISA_bool env VecAMX) s) as [[|] | e] eqn:B;
      try discriminate.
    split; [discriminate |]. split; [now apply Base |]. intros _.
    destruct (is_fbcode env); [discriminate |].
    destruct (run (check_build env VecAMX _amx_code) s) as [[|] | e];
      try discriminate.
    injection R as R. auto.
Qed.

(** C1, as the code has it.  A descriptor other than the sentinel that
    [pick_vec_isa] returns is, in fbcode, the AVX2 descriptor; and
    outside fbcode either the NEON descriptor on aarch64 or Apple
    silicon, or the ZVECTOR descriptor on s390x, both entered in the list
    on the evidence of the platform alone, or a descriptor of the x86
    catalogue whose [bool] was true: usability forced by the
    configuration or the dry compile of the vector probe passed, and for
    the matrix-tile descriptor in addition the dry compile of the tile
    probe passed and the tiles were enabled. *)
Theorem selected_descriptor_provenance env s isa :
  reachable env s ->
  run (pick_vec_isa env) s = Ok isa ->
  isa <> invalid_vec_isa ->
  (is_fbcode env = true /\ isa = VecAVX2)
  \/ (is_fbcode env = false
      /\ ((isa = VecNEON
           /\ (is_apple_arm env = true \/ platform_machine env = "aarch64"))
          \/ (isa = VecZVECTOR /\ platform_machine env = "s390x")
          \/ (In isa supported_vec_isa_list
              /\ run (isa_bool env isa) s = Ok true
              /\ (vec_isa_ok env = Some true
                  \/ (vec_isa_ok env = None
                      /\ run (check_build env isa _avx_code) s = Ok true))
              /\ (isa = VecAMX ->
                  run (check_build env VecAMX _amx_code) s = Ok true
                  /\ _init_amx env = true)))).
Proof.
  intros Hr R N. assert (Hs := reachable_consistent env s Hr).
  destruct (is_fbcode env) eqn:F.
  { left. split; [reflexivity |].
    unfold run in R. rewrite (pick_vec_isa_fbcode env s F) in R.
    cbn in R. congruence. }
  right. split; [reflexivity |].
  destruct (run (valid_vec_isa_list env) s) as [l | e] eqn:L.
  2:{ unfold pick_vec_isa in R. rewrite F, run_bind, L in R. discriminate. }
  rewrite (pick_vec_isa_from_list env s l F L) in R. injection R as R.
  assert (HIn : In isa l).
  { destruct l as [| first rest]; [now subst isa |].
    destruct (simdlen env) as [width |]; [| subst isa; now left].
    destruct (first_of_width_in width (first :: rest)) as [E | E];
      rewrite R in E; [contradiction | exact E]. }
  clear R.
  destruct (valid_list_shape env s l Hs L)
    as [_ E | content Z _ E | A E | sup _ _ _ E | E]; subst l.
  - destruct (is_apple_arm env) eqn:A; [| destruct HIn].
    destruct HIn as [<- | []]. left. auto.
  - apply scan_cpuinfo_elements in HIn. destruct HIn as [[] | ->].
    right; left. auto.
  - destruct HIn as [<- | []]. left. auto.
  - apply filter_In in HIn. destruct HIn as [HIn K].
    unfold kept_in in K. apply andb_true_iff in K. destruct K as [_ U].
    unfold usable_in in U.
    destruct (run (isa_bool env isa) s) as [[|] | e] eqn:B;
      try discriminate.
    destruct (isa_bool_true_cause env s isa Hs B) as (_ & C & D).
    right; right. split; [exact HIn |]. split; [reflexivity |]. split.
    + destruct C as [C | [C [C' | C']]]; auto. congruence.
    + intros Ea. destruct (D Ea) as (_ & D1 & D2). auto.
  - destruct HIn.
Qed.

Lemma selected_descriptor_provenance_witness :
  run (pick_vec_isa Sample.haswell) init_state = Ok VecAVX2
  /\ run (check_build Sample.haswell VecAVX2 _avx_code) init_state = Ok true.
Proof.
  assert (R : run (pick_vec_isa Sample.haswell) init_state = Ok VecAVX2)
    by (vm_compute; reflexivity).
  split; [exact R |].
  destruct (selected_descriptor_provenance Sample.haswell init_state VecAVX2
              (reach_init _) R)
    as [[F _] | [_ [[E _] | [[E _] | (_ & _ & [C | [_ C]] & _)]]]];
    try discriminate.
  exact C.
Defined.

(** C1, as the specification has it, fails: on aarch64 the NEON
    descriptor is selected although its dry compile fails, usability is
    not forced and the process is not in fbcode. *)
Lemma neon_selected_unverified :
  run (pick_vec_isa Sample.graviton) init_state = Ok VecNEON
  /\ VecNEON <> invalid_vec_isa
  /\ run (check_build Sample.graviton VecNEON _avx_code) init_state = Ok false
  /\ run (isa_bool Sample.graviton VecNEON) init_state = Ok false
  /\ vec_isa_ok Sample.graviton = None
  /\ is_fbcode Sample.graviton = false.
Proof.
  repeat split; try discriminate; vm_compute; reflexivity.
Qed.

(* ================================================================== *)
(** ** Priority among the x86 descriptors *)
(* ================================================================== *)

Lemma x86_isa_checker_no_asimd env s sup :
  run (x86_isa_checker env) s = Ok sup -> PyStr.mem "asimd" sup = false.
Proof.
  unfold x86_isa_checker.
  destruct (negb (platform_machine env =? "x86_64")%string
            && negb (platform_machine env =? "AMD64")%string).
  - intros [= <-]. reflexivity.
  - rewrite !run_bind, !run_perform. cbn.
    unfold _check_and_append_supported_isa.
    destruct (_is_cpu_support_avx2 env), (_is_cpu_support_avx512 env),
      (_is_cpu_support_amx_tile env); intros [= <-]; reflexivity.
Qed.

(** The matrix-tile descriptor is unusable when its own dry compile
    fails or the tiles cannot be enabled, provided the check it inherits
    does not raise. *)
Lemma amx_unusable_when_extra_check_fails env s base :
  memo_consistent env s ->
  run (VecISA_bool env VecAMX) s = Ok base ->
  run (check_build env VecAMX _amx_code) s = Ok false
  \/ (run (check_build env VecAMX _amx_code) s = Ok true
      /\ _init_amx env = false) ->
  run (isa_bool env VecAMX) s = Ok false.
Proof.
  intros Hs B H. cbn [isa_bool]. rewrite VecAMX_bool_run, B by exact Hs.
  destruct base; [| reflexivity].
  destruct (is_fbcode env); [reflexivity |].
  destruct H as [-> | [-> ->]]; reflexivity.
Qed.

(** C6, as the code has it.  On the x86 branch, outside fbcode and with
    no bit width requested or 512 requested: when the host reports
    avx512 and amx_tile, [bool] of the matrix-tile descriptor is false,
    [bool] of the AVX-512 descriptor is true and that of the AVX2
    descriptor, if it is evaluated, does not raise, [pick_vec_isa]
    returns the AVX-512 descriptor. *)
Theorem wide_vector_when_tiles_unusable env s sup :
  reachable env s ->
  is_fbcode env = false ->
  simdlen env = None \/ simdlen env = Some 512 ->
  PyStr.mem (sys_platform env) ["linux"; "win32"] = true ->
  PyStr.mem (platform_machine env) ["x86_64"; "AMD64"] = true ->
  run (x86_isa_checker env) s = Ok sup ->
  PyStr.mem "avx512" sup = true ->
  PyStr.mem "amx_tile" sup = true ->
  run (isa_bool env VecAMX) s = Ok false ->
  run (isa_bool env VecAVX512) s = Ok true ->
  (PyStr.mem "avx2" sup = true ->
   exists b, run (isa_bool env VecAVX2) s = Ok b) ->
  run (pick_vec_isa env) s = Ok VecAVX512.
Proof.
  intros Hr F W P X Hsup H512 Hamx Ba Bw B2.
  assert (Hs := reachable_consistent env s Hr).
  destruct (names_supported_catalogue sup) as (Na & Nw & N2 & Nn).
  assert (R : exists rest,
             run (valid_vec_isa_list env) s = Ok (VecAVX512 :: rest)).
  { rewrite (valid_list_x86 env s sup Hs P X Hsup).
    - unfold supported_vec_isa_list, kept_in. cbn [filter].
      assert (Ua : usable_in env s VecAMX = false)
        by (unfold usable_in; now rewrite Ba).
      assert (Uw : usable_in env s VecAVX512 = true)
        by (unfold usable_in; now rewrite Bw).
      rewrite Na, Nw, H512, Hamx, Ua, Uw. cbn. eexists; reflexivity.
    - intros isa HIn N.
      destruct HIn as [<- | [<- | [<- | [<- | []]]]].
      + now exists false.
      + now exists true.
      + apply B2. now rewrite <- N2.
      + rewrite Nn, (x86_isa_checker_no_asimd env s sup Hsup) in N.
        discriminate. }
  destruct R as [rest R].
  rewrite (pick_vec_isa_from_list env s _ F R).
  destruct W as [-> | ->]; reflexivity.
Qed.

Lemma wide_vector_when_tiles_unusable_witness :
  run (check_build Sample.auto_no_tiles VecAMX _amx_code) init_state
  = Ok false
  /\ run (isa_bool Sample.auto_no_tiles VecAVX512) init_state = Ok true
  /\ run (pick_vec_isa Sample.auto_no_tiles) init_state = Ok VecAVX512.
Proof.
  assert (Ba : run (isa_bool Sample.auto_no_tiles VecAMX) init_state
               = Ok false) by (vm_compute; reflexivity).
  assert (Bw : run (isa_bool Sample.auto_no_tiles VecAVX512) init_state
               = Ok true) by (vm_compute; reflexivity).
  assert (Hsup : run (x86_isa_checker Sample.auto_no_tiles) init_state
                 = Ok ["avx2"; "avx512"; "amx_tile"])
    by (vm_compute; reflexivity).
  split; [vm_compute; reflexivity |]. split; [exact Bw |].
  apply (wide_vector_when_tiles_unusable Sample.auto_no_tiles init_state
           ["avx2"; "avx512"; "amx_tile"] (reach_init _) eq_refl
           (or_introl eq_refl) eq_refl eq_refl Hsup eq_refl eq_refl Ba Bw).
  intros _. exists true. vm_compute. reflexivity.
Defined.

(** C6, as the specification has it, fails: on a host with avx512 and
    amx_tile where the tile probe does not build and the AVX-512 probe
    does, a request for 256 bits makes [pick_vec_isa] return the AVX2
    descriptor. *)
Lemma width_256_overrides_priority :
  run (x86_isa_checker Sample.width_256_no_tiles) init_state
  = Ok ["avx2"; "avx512"; "amx_tile"]
  /\ run (check_build Sample.width_256_no_tiles VecAMX _amx_code) init_state
     = Ok false
  /\ run (isa_bool Sample.width_256_no_tiles VecAMX) init_state = Ok false
  /\ run (isa_bool Sample.width_256_no_tiles VecAVX512) init_state = Ok true
  /\ run (pick_vec_isa Sample.width_256_no_tiles) init_state = Ok VecAVX2
  /\ run (pick_vec_isa Sample.width_256_no_tiles) init_state <> Ok VecAVX512.
Proof.
  repeat split; try (vm_compute; discriminate); vm_compute; reflexivity.
Qed.

(** The matrix-tile descriptor is never valid in fbcode. *)
Lemma valid_amx_not_fbcode env s l :
  memo_consistent env s ->
  run (valid_vec_isa_list env) s = Ok l ->
  In VecAMX l ->
  is_fbcode env = false.
Proof.
  intros Hs R HIn.
  destruct (valid_list_shape env s l Hs R)
    as [_ E | content _ _ E | _ E | sup _ _ _ E | E]; subst l.
  - destruct (is_apple_arm env); cbn in HIn; intuition discriminate.
  - apply scan_cpuinfo_elements in HIn. cbn in HIn. intuition discriminate.
  - cbn in HIn. intuition discriminate.
  - apply filter_In in HIn. destruct HIn as [_ K].
    unfold kept_in in K. apply andb_true_iff in K. destruct K as [_ U].
    unfold usable_in in U. cbn [isa_bool] in U.
    rewrite VecAMX_bool_run in U by exact Hs.
    destruct (run (VecISA_bool env VecAMX) s) as [[|] | e];
      try discriminate.
    destruct (is_fbcode env); [discriminate | reflexivity].
  - destruct HIn.
Qed.

(** C10.  [VecAMX] has the bit width of [VecAVX512], 512; so when the
    configuration asks for 512 bits and both descriptors are in the list
    of valid descriptors, [pick_vec_isa] returns [VecAMX], which comes
    first. *)
Theorem width_512_prefers_amx env s l :
  reachable env s ->
  simdlen env = Some 512 ->
  run (valid_vec_isa_list env) s = Ok l ->
  In VecAMX l ->
  In VecAVX512 l ->
  bit_width VecAMX = bit_width VecAVX512
  /\ bit_width VecAMX = 512
  /\ run (pick_vec_isa env) s = Ok VecAMX.
Proof.
  intros Hr W R HA _. split; [reflexivity |]. split; [reflexivity |].
  assert (Hs := reachable_consistent env s Hr).
  assert (F := valid_amx_not_fbcode env s l Hs R HA).
  destruct (valid_list_amx_first env s l Hs R HA) as [rest ->].
  rewrite (pick_vec_isa_from_list env s _ F R), W. reflexivity.
Qed.

Lemma width_512_prefers_amx_witness :
  run (valid_vec_isa_list Sample.width_512) init_state
  = Ok [VecAMX; VecAVX512; VecAVX2]
  /\ run (pick_vec_isa Sample.width_512) init_state = Ok VecAMX.
Proof.
  assert (R : run (valid_vec_isa_list Sample.width_512) init_state
              = Ok [VecAMX; VecAVX512; VecAVX2]) by (vm_compute; reflexivity).
  split; [exact R |].
  refine (proj2 (proj2 (width_512_prefers_amx Sample.width_512 init_state
                          [VecAMX; VecAVX512; VecAVX2]
                          (reach_init _) eq_refl R _ _))).
  - cbn. auto.
  - cbn. auto.
Defined.

(* ================================================================== *)
(** ** Further properties: the compiler's version string *)
(* ================================================================== *)

Lemma strip_prefix_char c x s :
  PyStr.strip_prefix (String c "") (String x s)
  = if Ascii.eqb c x then Some s else None.
Proof. reflexivity. Qed.

Lemma chars_app a b : chars (a ++ b) = (chars a ++ chars b)%list.
Proof.
  unfold chars. induction a as [| x a IH]; cbn; [reflexivity |].
  now rewrite IH.
Qed.

(** Replacing one character: what a character of the result is. *)
Lemma replace_char_chars c new s d :
  In d (chars (PyStr.replace (String c "") new s)) ->
  In d (chars new) \/ (In d (chars s) /\ d <> c).
Proof.
  unfold PyStr.replace.
  induction s as [| x s IH]; cbn [PyStr.replace_from]; [intros [] |].
  rewrite strip_prefix_char.
  destruct (Ascii.eqb_spec c x) as [-> | N].
  - cbn [String.length Nat.sub]. rewrite chars_app. intros H.
    apply in_app_or in H. destruct H as [H | H]; [now left |].
    apply IH in H. destruct H as [H | [H1 H2]]; [now left |].
    right. split; [now right | exact H2].
  - unfold chars in *. cbn. intros [<- | H].
    + right. split; [now left | congruence].
    + apply IH in H. destruct H as [H | [H1 H2]]; [now left |].
      right. split; [now right | exact H2].
Qed.

Lemma one_line_chars v d :
  In d (chars (one_line v)) -> d = "_"%char \/ (d <> PyStr.CR /\ d <> PyStr.LF).
Proof.
  unfold one_line. intros H.
  apply replace_char_chars in H. destruct H as [[<- | []] | [H N]];
    [now left |].
  apply replace_char_chars in H. destruct H as [[<- | []] | [_ N']];
    [now left | now right].
Qed.

Lemma get_compiler_version_info_run env compiler s :
  run (get_compiler_version_info env compiler) s
  = match check_output env [compiler; "-v"] with
    | Ok v => Ok (one_line v)
    | Raise _ =>
        match check_output env [compiler; "--version"] with
        | Ok v => Ok (one_line v)
        | Raise _ => Ok ""
        end
    end.
Proof.
  unfold get_compiler_version_info, run_check_output.
  rewrite run_bind, run_try_except, run_bind, run_perform.
  destruct (check_output env [compiler; "-v"]) as [v | e]; [reflexivity |].
  rewrite run_try_except, run_bind, run_perform.
  destruct (check_output env [compiler; "--version"]); reflexivity.
Qed.

(** X1.  [get_compiler_version_info] never raises, whatever the two
    compiler invocations do, and the string it returns is a single line:
    it holds neither a carriage return nor a line feed. *)
Theorem compiler_version_is_one_line env compiler s :
  exists v,
    run (get_compiler_version_info env compiler) s = Ok v
    /\ ~ In PyStr.CR (chars v)
    /\ ~ In PyStr.LF (chars v).
Proof.
  rewrite get_compiler_version_info_run.
  assert (H : forall v, ~ In PyStr.CR (chars (one_line v))
                        /\ ~ In PyStr.LF (chars (one_line v))).
  { intros v. split; intros H; apply one_line_chars in H;
      destruct H as [H | [H1 H2]]; try discriminate; congruence. }
  destruct (check_output env [compiler; "-v"]) as [v | e].
  - exists (one_line v). split; [reflexivity | apply H].
  - destruct (check_output env [compiler; "--version"]) as [v | e'].
    + exists (one_line v). split; [reflexivity | apply H].
    + exists "". split; [reflexivity |]. split; intros [].
Qed.

Lemma get_compiler_version_info_trace env compiler s :
  trace (after (get_compiler_version_info env compiler) s)
  = (trace s
     ++ match check_output env [compiler; "-v"] with
        | Ok _ => [EvCheckOutput [compiler; "-v"]]
        | Raise _ => [EvCheckOutput [compiler; "-v"];
                      EvCheckOutput [compiler; "--version"]]
        end)%list.
Proof.
  unfold get_compiler_version_info, run_check_output, after, bind,
    try_except, perform, ret.
  cbn. destruct (check_output env [compiler; "-v"]) as [v | e]; cbn;
    [reflexivity |].
  destruct (check_output env [compiler; "--version"]) as [v | e']; cbn;
    now rewrite <- app_assoc.
Qed.

(** X2.  The compiler is asked with [-v] first.  When that succeeds,
    its normalised output is the answer and nothing else is run; when it
    fails, [--version] is tried, and when both fail the answer is the
    empty string. *)
Theorem compiler_version_fallback env compiler s :
  (forall v,
     check_output env [compiler; "-v"] = Ok v ->
     run (get_compiler_version_info env compiler) s = Ok (one_line v)
     /\ trace (after (get_compiler_version_info env compiler) s)
        = (trace s ++ [EvCheckOutput [compiler; "-v"]])%list)
  /\ (forall e,
        check_output env [compiler; "-v"] = Raise e ->
        run (get_compiler_version_info env compiler) s
        = match check_output env [compiler; "--version"] with
          | Ok v => Ok (one_line v)
          | Raise _ => Ok ""
          end
        /\ trace (after (get_compiler_version_info env compiler) s)
           = (trace s ++ [EvCheckOutput [compiler; "-v"];
                          EvCheckOutput [compiler; "--version"]])%list).
Proof.
  split; intros x H;
    rewrite get_compiler_version_info_run, get_compiler_version_info_trace, H;
    split; reflexivity.
Qed.

Lemma compiler_version_fallback_witness :
  run (get_compiler_version_info Sample.haswell "g++") init_state
  = Ok "gcc version 13.2.0_"
  /\ run (get_compiler_version_info Sample.haswell_silent "g++") init_state
     = Ok "".
Proof.
  split.
  - exact (proj1 (proj1 (compiler_version_fallback Sample.haswell "g++"
                           init_state) Sample.gcc13 eq_refl)).
  - exact (proj1 (proj2 (compiler_version_fallback Sample.haswell_silent
                           "g++" init_state) CalledProcessError eq_refl)).
Defined.

(* ================================================================== *)
(** ** Further properties: the steps of the dry compile *)
(* ================================================================== *)

(** The trace of [check_build] once the probe is written and the lock
    directory known, by the outcome of each later step. *)
Lemma check_build_trace env self code s extra key input_path lock_dir :
  run (_get_isa_dry_compile_fingerprint env (_arch_flags env self)) s
  = Ok extra ->
  write env code "cpp" extra = Ok (key, input_path) ->
  get_lock_dir env = Ok lock_dir ->
  trace (after (check_build env self code) s)
  = (trace (after (_get_isa_dry_compile_fingerprint env
                     (_arch_flags env self)) s)
     ++ [EvWrite code "cpp" extra;
         EvLockAcquire (path_join env lock_dir (key ++ ".lock"))]
     ++ match lock_enter env (path_join env lock_dir (key ++ ".lock")) with
        | Raise _ => []
        | Ok _ =>
            match new_builder env (builder_of env self key input_path) with
            | Raise _ => []
            | Ok _ =>
                match get_target_file_path env
                        (builder_of env self key input_path) with
                | Raise _ => []
                | Ok output_path =>
                    if path_isfile env output_path
                    then [EvCheckCall (load_args env output_path)]
                    else
                      EvBuild (builder_of env self key input_path)
                      :: match build env
                                 (builder_of env self key input_path) with
                         | Ok _ => [EvCheckCall (load_args env output_path)]
                         | Raise _ => []
                         end
                end
            end
            ++ [EvLockRelease (path_join env lock_dir (key ++ ".lock"))]
        end)%list.
Proof.
  intros Rf W D. unfold builder_of, load_args.
  unfold check_build. rewrite after_bind, Rf.
  generalize (after (_get_isa_dry_compile_fingerprint env
                       (_arch_flags env self)) s) as s1.
  intros s1.
  unfold with_lock, after, bind, try_except, finally, perform, lift, ret, log.
  cbn. rewrite W. cbn. rewrite D. cbn.
  destruct (lock_enter env _) as [[] | e]; cbn;
    [| now rewrite <- app_assoc].
  destruct (new_builder env _) as [[] | e]; cbn;
    [| now rewrite <- !app_assoc].
  destruct (get_target_file_path env _) as [output_path | e]; cbn;
    [| now rewrite <- !app_assoc].
  destruct (path_isfile env output_path); cbn.
  - destruct (check_call env _) as [[] | e]; cbn;
      now rewrite <- !app_assoc.
  - destruct (build env _) as [[] | e]; cbn.
    + destruct (check_call env _) as [[] | e]; cbn;
        now rewrite <- !app_assoc.
    + now rewrite <- !app_assoc.
Qed.

(** The outcome of [check_build] under the same conditions. *)
Lemma check_build_result env self code s extra key input_path lock_dir :
  run (_get_isa_dry_compile_fingerprint env (_arch_flags env self)) s
  = Ok extra ->
  write env code "cpp" extra = Ok (key, input_path) ->
  get_lock_dir env = Ok lock_dir ->
  run (check_build env self code) s
  = match lock_enter env (path_join env lock_dir (key ++ ".lock")) with
    | Raise e => Raise e
    | Ok _ =>
        match new_builder env (builder_of env self key input_path) with
        | Raise e => Raise e
        | Ok _ =>
            match get_target_file_path env
                    (builder_of env self key input_path) with
            | Raise _ => Ok false
            | Ok output_path =>
                let loaded :=
                  match check_call env (load_args env output_path) with
                  | Ok _ => Ok true
                  | Raise _ => Ok false
                  end in
                if path_isfile env output_path then loaded
                else match build env (builder_of env self key input_path) with
                     | Ok _ => loaded
                     | Raise _ => Ok false
                     end
            end
        end
    end.
Proof.
  intros Rf W D. unfold builder_of, load_args.
  unfold check_build. rewrite run_bind, Rf.
  generalize (after (_get_isa_dry_compile_fingerprint env
                       (_arch_flags env self)) s) as s1.
  intros s1.
  unfold with_lock, run, bind, try_except, finally, perform, lift, ret, log.
  cbn. rewrite W. cbn. rewrite D. cbn.
  destruct (lock_enter env _) as [[] | e]; cbn; [| reflexivity].
  destruct (new_builder env _) as [[] | e]; cbn; [| reflexivity].
  destruct (get_target_file_path env _) as [output_path | e]; cbn;
    [| reflexivity].
  destruct (path_isfile env output_path); cbn.
  - destruct (check_call env _) as [[] | e]; reflexivity.
  - destruct (build env _) as [[] | e]; cbn; [| reflexivity].
    destruct (check_call env _) as [[] | e]; reflexivity.
Qed.

(** X3.  Once the probe is written, the lock held and the builder made:
    when the target file already exists, [check_build] does not build, it
    only loads the artifact; when it does not exist, the build runs
    first, and if the build fails the artifact is not loaded and the
    answer is [False]. *)
Theorem artifact_reused_and_load_after_build
    env self code s extra key input_path lock_dir output_path :
  run (_get_isa_dry_compile_fingerprint env (_arch_flags env self)) s
  = Ok extra ->
  write env code "cpp" extra = Ok (key, input_path) ->
  get_lock_dir env = Ok lock_dir ->
  lock_enter env (path_join env lock_dir (key ++ ".lock")) = Ok tt ->
  new_builder env (builder_of env self key input_path) = Ok tt ->
  get_target_file_path env (builder_of env self key input_path)
  = Ok output_path ->
  exists evs,
    trace (after (check_build env self code) s) = (trace s ++ evs)%list
    /\ (path_isfile env output_path = true ->
        (forall b, ~ In (EvBuild b) evs)
        /\ In (EvCheckCall (load_args env output_path)) evs)
    /\ (path_isfile env output_path = false ->
        In (EvBuild (builder_of env self key input_path)) evs
        /\ forall e,
             build env (builder_of env self key input_path) = Raise e ->
             run (check_build env self code) s = Ok false
             /\ forall args, ~ In (EvCheckCall args) evs).
Proof.
  intros Rf W D L B T.
  destruct (fingerprint_emits env (_arch_flags env self) s)
    as (before & Eb & Fb).
  assert (Nb : forall ev, In ev before -> is_check_output ev)
    by now apply Forall_forall.
  rewrite (check_build_trace env self code s extra key input_path lock_dir
             Rf W D), L, B, T, Eb.
  rewrite (check_build_result env self code s extra key input_path lock_dir
             Rf W D), L, B, T.
  rewrite <- app_assoc. eexists. split; [reflexivity |]. split.
  - intros ->. split.
    + intros b H. apply in_app_or in H. destruct H as [H | H].
      * apply Nb in H. destruct H as [args [=]].
      * cbn in H. intuition discriminate.
    + apply in_or_app. right. cbn. auto.
  - intros ->. split.
    + apply in_or_app. right. cbn. auto.
    + intros e ->. split; [reflexivity |].
      intros args H. apply in_app_or in H. destruct H as [H | H].
      * apply Nb in H. destruct H as [a E]. discriminate E.
      * cbn in H. intuition discriminate.
Qed.

Lemma artifact_reused_and_load_after_build_witness :
  run (check_build Sample.warm_cache VecAVX2 _avx_code) init_state = Ok true
  /\ existsb is_build
       (trace (after (check_build Sample.warm_cache VecAVX2 _avx_code)
                 init_state))
     = false.
Proof.
  split; [vm_compute; reflexivity |].
  destruct (artifact_reused_and_load_after_build
              Sample.warm_cache VecAVX2 _avx_code init_state
              _ _ _ _ _ eq_refl eq_refl eq_refl eq_refl eq_refl eq_refl)
    as (evs & E & H & _).
  destruct (H eq_refl) as [H1 _].
  cbn [trace init_state app] in E. rewrite E.
  clear - H1. induction evs as [| ev evs IH]; [reflexivity |].
  cbn. destruct ev; cbn; try (apply IH; intros b Hb; apply (H1 b); now right).
  exfalso. apply (H1 b). now left.
Defined.

(** X4.  The lock is released on every path out of the [with] block:
    whenever it was entered, be it that the builder cannot be made, the
    build fails or the load fails, the last event of [check_build] is
    the release of that same lock, with no other lock event in between;
    and when entering fails nothing is released. *)
Theorem lock_released_on_every_path
    env self code s extra key input_path lock_dir :
  run (_get_isa_dry_compile_fingerprint env (_arch_flags env self)) s
  = Ok extra ->
  write env code "cpp" extra = Ok (key, input_path) ->
  get_lock_dir env = Ok lock_dir ->
  (lock_enter env (path_join env lock_dir (key ++ ".lock")) = Ok tt ->
   exists before inside,
     trace (after (check_build env self code) s)
     = (trace s ++ before
        ++ [EvLockAcquire (path_join env lock_dir (key ++ ".lock"))]
        ++ inside
        ++ [EvLockRelease (path_join env lock_dir (key ++ ".lock"))])%list
     /\ Forall (fun ev => ~ is_lock_event ev) before
     /\ Forall (fun ev => ~ is_lock_event ev) inside)
  /\ (forall e,
        lock_enter env (path_join env lock_dir (key ++ ".lock")) = Raise e ->
        run (check_build env self code) s = Raise e
        /\ exists before,
             trace (after (check_build env self code) s)
             = (trace s ++ before
                ++ [EvLockAcquire
                      (path_join env lock_dir (key ++ ".lock"))])%list
             /\ Forall (fun ev => ~ is_lock_event ev) before).
Proof.
  intros Rf W D.
  destruct (fingerprint_emits env (_arch_flags env self) s)
    as (before & Eb & Fb).
  assert (Nb : Forall (fun ev => ~ is_lock_event ev)
                 (before ++ [EvWrite code "cpp" extra])).
  { apply Forall_app. split.
    - eapply Forall_impl; [| exact Fb].
      intros ev [args ->] [[p E] | [p E]]; discriminate E.
    - constructor; [| constructor].
      intros [[p E] | [p E]]; discriminate E. }
  rewrite (check_build_trace env self code s extra key input_path lock_dir
             Rf W D), Eb.
  rewrite (check_build_result env self code s extra key input_path lock_dir
             Rf W D).
  split.
  - intros ->. exists (before ++ [EvWrite code "cpp" extra])%list.
    match goal with
    | |- context [(?mid ++ [EvLockRelease _])%list] => exists mid
    end.
    split; [| split; [exact Nb |]].
    + rewrite <- !app_assoc. cbn [app]. reflexivity.
    + assert (N1 : forall a, ~ is_lock_event (EvCheckCall a))
        by (intros a [[p E] | [p E]]; discriminate E).
      assert (N2 : forall b, ~ is_lock_event (EvBuild b))
        by (intros b [[p E] | [p E]]; discriminate E).
      destruct (new_builder env _); [| constructor].
      destruct (get_target_file_path env _) as [output_path |];
        [| constructor].
      destruct (path_isfile env output_path); [repeat constructor; auto |].
      destruct (build env _); repeat constructor; auto.
  - intros e ->. split; [reflexivity |].
    exists (before ++ [EvWrite code "cpp" extra])%list.
    split; [| exact Nb].
    rewrite <- !app_assoc. reflexivity.
Qed.

Lemma lock_released_on_every_path_witness :
  run (check_build Sample.contended_lock VecAVX2 _avx_code) init_state
  = Raise LockTimeout
  /\ existsb is_lock_release
       (trace (after (check_build Sample.contended_lock VecAVX2 _avx_code)
                 init_state))
     = false.
Proof.
  split.
  - exact (proj1 (proj2 (lock_released_on_every_path
                           Sample.contended_lock VecAVX2 _avx_code init_state
                           _ _ _ _ eq_refl eq_refl eq_refl)
                        LockTimeout eq_refl)).
  - vm_compute. reflexivity.
Defined.

(* ================================================================== *)
(** ** Further properties: memoisation *)
(* ================================================================== *)

(** A cached function called again after it returned: the value comes
    from the table and the state does not move. *)
Lemma lru_second_call {A} find enter (body : M A) s a :
  (forall a' s', find (enter a' s') = Some a') ->
  run (lru_cache find enter body) s = Ok a ->
  lru_cache find enter body (after (lru_cache find enter body) s)
  = (Ok a, after (lru_cache find enter body) s).
Proof.
  intros He. unfold run, after, lru_cache.
  destruct (find s) as [a0 |] eqn:F; cbn.
  - intros [= ->]. now rewrite F.
  - destruct (body s) as [[a0 | e] s']; cbn; [| discriminate].
    intros [= ->]. now rewrite He.
Qed.

Lemma memo_lookup_set self b s :
  memo_lookup self (bool_memo (set_bool_memo self b s)) = Some b.
Proof. cbn. now destruct self. Qed.

Lemma VecISA_bool_second_call env self s b :
  run (VecISA_bool env self) s = Ok b ->
  VecISA_bool env self (after (VecISA_bool env self) s)
  = (Ok b, after (VecISA_bool env self) s).
Proof.
  apply lru_second_call. intros a' s'. apply memo_lookup_set.
Qed.

(** X5.  Usability is decided once per descriptor and process: after
    [bool(isa)] has returned, evaluating it again returns the same
    boolean and changes nothing, so no probe is written, no lock taken
    and no build or subprocess run a second time. *)
Theorem usability_memoised env isa s b :
  run (isa_bool env isa) s = Ok b ->
  isa_bool env isa (after (isa_bool env isa) s)
  = (Ok b, after (isa_bool env isa) s).
Proof.
  destruct isa; cbn [isa_bool];
    try apply VecISA_bool_second_call.
  - apply lru_second_call. reflexivity.
  - unfold InvalidVecISA_bool, run, after, ret. cbn. now intros [= <-].
Qed.

Lemma usability_memoised_witness :
  trace (after (isa_bool Sample.haswell VecAVX2)
           (after (isa_bool Sample.haswell VecAVX2) init_state))
  = trace (after (isa_bool Sample.haswell VecAVX2) init_state).
Proof.
  assert (R : run (isa_bool Sample.haswell VecAVX2) init_state = Ok true)
    by (vm_compute; reflexivity).
  unfold after at 1.
  now rewrite (usability_memoised Sample.haswell VecAVX2 init_state true R).
Defined.

(** X6.  Selection is idempotent: after [pick_vec_isa] has returned a
    descriptor, calling it again returns the same descriptor and changes
    nothing, whatever the state the first call started from. *)
Theorem pick_vec_isa_idempotent env s isa :
  run (pick_vec_isa env) s = Ok isa ->
  pick_vec_isa env (after (pick_vec_isa env) s)
  = (Ok isa, after (pick_vec_isa env) s).
Proof.
  destruct (is_fbcode env) eqn:F.
  { unfold run, after. rewrite !(pick_vec_isa_fbcode env _ F). cbn.
    now intros [= <-]. }
  unfold pick_vec_isa. rewrite F. intros R.
  assert (V : exists l, run (valid_vec_isa_list env) s = Ok l).
  { rewrite run_bind in R.
    destruct (run (valid_vec_isa_list env) s) as [l | e];
      [now exists l | discriminate]. }
  destruct V as [l V].
  assert (S2 : valid_vec_isa_list env (after (valid_vec_isa_list env) s)
               = (Ok l, after (valid_vec_isa_list env) s))
    by (apply lru_second_call; [reflexivity | exact V]).
  rewrite run_bind, V in R. rewrite after_bind, V.
  assert (K : forall st,
             after (match l with
                    | [] => ret invalid_vec_isa
                    | first :: _ =>
                        match simdlen env with
                        | None => ret first
                        | Some width => ret (first_of_width width l)
                        end
                    end) st = st
             /\ run (match l with
                     | [] => ret invalid_vec_isa
                     | first :: _ =>
                         match simdlen env with
                         | None => ret first
                         | Some width => ret (first_of_width width l)
                         end
                     end) st
                = run (match l with
                       | [] => ret invalid_vec_isa
                       | first :: _ =>
                           match simdlen env with
                           | None => ret first
                           | Some width => ret (first_of_width width l)
                           end
                       end) (after (valid_vec_isa_list env) s)).
  { intros st. destruct l as [| first rest]; [split; reflexivity |].
    destruct (simdlen env); split; reflexivity. }
  rewrite (proj1 (K _)).
  unfold bind at 1. rewrite S2.
  match goal with
  | |- ?m ?st = _ =>
      rewrite (surjective_pairing (m st));
      change (fst (m st)) with (run m st);
      change (snd (m st)) with (after m st)
  end.
  now rewrite (proj1 (K _)), R.
Qed.

Lemma pick_vec_isa_idempotent_witness :
  pick_vec_isa Sample.haswell (after (pick_vec_isa Sample.haswell) init_state)
  = (Ok VecAVX2, after (pick_vec_isa Sample.haswell) init_state).
Proof.
  apply pick_vec_isa_idempotent. vm_compute. reflexivity.
Defined.

Lemma oblivious_VecISA_bool_body env self :
  oblivious (VecISA_bool_body env self).
Proof.
  unfold VecISA_bool_body.
  destruct (vec_isa_ok env); [apply oblivious_ret |].
  apply oblivious_if; [apply oblivious_ret | apply oblivious_check_build].
Qed.

(** Whatever happens later, [check_build] begins by asking the compiler
    for its version. *)
Lemma check_build_starts_with_probe env self code s :
  exists rest,
    trace (after (check_build env self code) s)
    = (trace s ++ EvCheckOutput [cpp_compiler env; "-v"] :: rest)%list.
Proof.
  assert (A : forall ev, any_event ev) by (intros ev; exact I).
  destruct (get_compiler_version_info_total env (cpp_compiler env) s)
    as [v Rv].
  unfold check_build. rewrite after_bind.
  rewrite (fingerprint_run env (_arch_flags env self) s v Rv).
  match goal with
  | |- context [after ?m ?s1] =>
      assert (Hm : emits any_event m)
        by (unfold with_lock; auto 20 with emits);
      destruct (Hm s1) as (evs & E & _)
  end.
  rewrite E. unfold _get_isa_dry_compile_fingerprint.
  rewrite after_bind, Rv, after_ret, get_compiler_version_info_trace.
  rewrite <- app_assoc.
  destruct (check_output env [cpp_compiler env; "-v"]);
    cbn [app]; eexists; reflexivity.
Qed.

(** X7.  A failure is not memoised.  When [VecISA.__bool__] raises, as
    it does when the probe cannot be written or the lock times out, the
    three tables are left as they were, and the next call runs the whole
    probe again, compiler query included, with the same outcome. *)
Theorem raising_usability_not_memoised env self s e :
  run (VecISA_bool env self) s = Raise e ->
  same_memos (after (VecISA_bool env self) s) s
  /\ run (VecISA_bool env self) (after (VecISA_bool env self) s) = Raise e
  /\ exists evs,
       In (EvCheckOutput [cpp_compiler env; "-v"]) evs
       /\ trace (after (VecISA_bool env self) s) = (trace s ++ evs)%list
       /\ trace (after (VecISA_bool env self) (after (VecISA_bool env self) s))
          = (trace s ++ evs ++ evs)%list.
Proof.
  intros R.
  destruct (oblivious_VecISA_bool_body env self) as (Or & Om & Ot).
  assert (L : memo_lookup self (bool_memo s) = None).
  { unfold run, VecISA_bool, lru_cache in R.
    destruct (memo_lookup self (bool_memo s)); [discriminate | reflexivity]. }
  assert (B : run (VecISA_bool_body env self) s = Raise e)
    by (unfold VecISA_bool in R; now rewrite run_lru_fresh in R).
  assert (E1 : VecISA_bool env self s = VecISA_bool_body env self s).
  { unfold VecISA_bool, lru_cache. rewrite L. unfold run in B.
    destruct (VecISA_bool_body env self s) as [[b | e'] s']; cbn in B;
      [discriminate | reflexivity]. }
  assert (M1 : same_memos (after (VecISA_bool env self) s) s)
    by (unfold after; rewrite E1; apply Om).
  assert (L2 : memo_lookup self
                 (bool_memo (after (VecISA_bool env self) s)) = None)
    by (destruct M1 as (-> & _); exact L).
  assert (B2 : run (VecISA_bool_body env self)
                 (after (VecISA_bool env self) s) = Raise e)
    by (rewrite (Or _ s); exact B).
  assert (E2 : VecISA_bool env self (after (VecISA_bool env self) s)
               = VecISA_bool_body env self (after (VecISA_bool env self) s)).
  { unfold VecISA_bool at 1, lru_cache. rewrite L2. unfold run in B2.
    destruct (VecISA_bool_body env self (after (VecISA_bool env self) s))
      as [[b | e'] s']; cbn in B2; [discriminate | reflexivity]. }
  split; [exact M1 |]. split.
  - unfold run. rewrite E2. exact B2.
  - destruct (Ot s) as (evs & T1 & T2). exists evs.
    assert (T1' : trace (after (VecISA_bool env self) s)
                  = (trace s ++ evs)%list)
      by (unfold after; rewrite E1; exact T1).
    split; [| split; [exact T1' |]].
    + unfold VecISA_bool_body in B, T1.
      destruct (vec_isa_ok env); [discriminate |].
      destruct (is_fbcode env); [discriminate |].
      destruct (check_build_starts_with_probe env self _avx_code s)
        as (rest & P).
      rewrite P in T1. apply app_inv_head in T1. rewrite <- T1. now left.
    + unfold after at 1. rewrite E2.
      change (snd (VecISA_bool_body env self ?x))
        with (after (VecISA_bool_body env self) x).
      rewrite T2, T1'. now rewrite app_assoc.
Qed.

Lemma raising_usability_not_memoised_witness :
  run (VecISA_bool Sample.contended_lock VecAVX2)
      (after (VecISA_bool Sample.contended_lock VecAVX2) init_state)
  = Raise LockTimeout.
Proof.
  refine (proj1 (proj2 (raising_usability_not_memoised
                          Sample.contended_lock VecAVX2 init_state
                          LockTimeout _))).
  vm_compute. reflexivity.
Defined.

(* ================================================================== *)
(** ** Further properties: usability in fbcode *)
(* ================================================================== *)

(** X8.  In fbcode a descriptor whose [bool] is not yet in the table of
    [lru_cache] is decided without any probe.  The matrix-tile
    descriptor is unusable, whatever the configuration forces and
    whatever the table of [VecISA.__bool__] holds for it; and with
    nothing forced, the other descriptors are usable.  In neither case
    is any external action performed. *)
Theorem fbcode_usability env s :
  is_fbcode env = true ->
  (amx_memo s = None ->
   run (isa_bool env VecAMX) s = Ok false
   /\ trace (after (isa_bool env VecAMX) s) = trace s)
  /\ (vec_isa_ok env = None ->
      forall isa,
        isa = VecAVX512 \/ isa = VecAVX2 \/ isa = VecNEON \/ isa = VecZVECTOR ->
        memo_lookup isa (bool_memo s) = None ->
        run (isa_bool env isa) s = Ok true
        /\ trace (after (isa_bool env isa) s) = trace s).
Proof.
  intros F.
  assert (Body : forall isa,
             VecISA_bool_body env isa
             = ret (match vec_isa_ok env with
                    | Some forced => forced
                    | None => true
                    end)).
  { intros isa. unfold VecISA_bool_body. rewrite F.
    now destruct (vec_isa_ok env). }
  split.
  - intros A. cbn [isa_bool].
    assert (B : exists base s1,
               VecISA_bool env VecAMX s = (Ok base, s1)
               /\ trace s1 = trace s).
    { rewrite (VecISA_bool_of_ret env VecAMX s _ (Body VecAMX)).
      destruct (memo_lookup VecAMX (bool_memo s));
        do 2 eexists; split; reflexivity. }
    destruct B as (base & s1 & B & T).
    destruct (VecAMX_bool_after_base env s base s1 A B) as [R Tr].
    rewrite R, F, Tr by now right.
    split; [now destruct base | exact T].
  - intros N isa H L.
    assert (E : VecISA_bool env isa s = (Ok true, set_bool_memo isa true s)).
    { rewrite (VecISA_bool_of_ret env isa s _ (Body isa)), L, N.
      reflexivity. }
    destruct H as [-> | [-> | [-> | ->]]]; cbn [isa_bool];
      unfold run, after; rewrite E; split; reflexivity.
Qed.

Lemma fbcode_usability_witness :
  run (isa_bool Sample.fbcode_host VecAMX) init_state = Ok false
  /\ run (isa_bool Sample.fbcode_host VecAVX512) init_state = Ok true
  /\ trace (after (isa_bool Sample.fbcode_host VecAVX512) init_state) = [].
Proof.
  destruct (fbcode_usability Sample.fbcode_host init_state eq_refl)
    as [A B].
  split; [exact (proj1 (A eq_refl)) |].
  exact (B eq_refl VecAVX512 (or_introl eq_refl) eq_refl).
Defined.

(* ================================================================== *)
(** ** Further properties: what the list of valid descriptors holds *)
(* ================================================================== *)

(** A name [x86_isa_checker] reports is a capability the CPU has. *)
Lemma x86_isa_checker_reports env s sup :
  run (x86_isa_checker env) s = Ok sup ->
  (PyStr.mem "avx2" sup = true -> _is_cpu_support_avx2 env = true)
  /\ (PyStr.mem "avx512" sup = true -> _is_cpu_support_avx512 env = true)
  /\ (PyStr.mem "amx_tile" sup = true -> _is_cpu_support_amx_tile env = true).
Proof.
  unfold x86_isa_checker.
  destruct (negb (platform_machine env =? "x86_64")%string
            && negb (platform_machine env =? "AMD64")%string).
  - intros [= <-]. repeat split; discriminate.
  - rewrite !run_bind, !run_perform. cbn.
    unfold _check_and_append_supported_isa.
    destruct (_is_cpu_support_avx2 env), (_is_cpu_support_avx512 env),
      (_is_cpu_support_amx_tile env); intros [= <-];
      repeat split; intros H; try reflexivity; discriminate H.
Qed.

(** A descriptor of the list, by the branch that entered it. *)
Lemma valid_list_member env s l isa :
  memo_consistent env s ->
  run (valid_vec_isa_list env) s = Ok l ->
  In isa l ->
  isa = VecNEON \/ isa = VecZVECTOR
  \/ (exists sup,
        run (x86_isa_checker env) s = Ok sup
        /\ In isa supported_vec_isa_list
        /\ names_supported sup isa = true
        /\ run (isa_bool env isa) s = Ok true).
Proof.
  intros Hs R HIn.
  destruct (valid_list_shape env s l Hs R)
    as [_ E | content _ _ E | _ E | sup _ _ Rx E | E]; subst l.
  - destruct (is_apple_arm env); cbn in HIn; intuition.
  - apply scan_cpuinfo_elements in HIn. cbn in HIn. intuition.
  - cbn in HIn. intuition.
  - apply filter_In in HIn. destruct HIn as [HIn K].
    unfold kept_in in K. apply andb_true_iff in K. destruct K as [N U].
    right; right. exists sup. repeat split; auto.
    unfold usable_in in U.
    now destruct (run (isa_bool env isa) s) as [[|] | e].
  - destruct HIn.
Qed.

(** X9.  A descriptor of the x86 catalogue is valid only when the CPU
    reports every feature its name lists: the matrix-tile descriptor
    needs both avx512 and amx_tile, the AVX-512 descriptor avx512, the
    AVX2 descriptor avx2. *)
Theorem valid_descriptor_has_host_features env s l :
  reachable env s ->
  run (valid_vec_isa_list env) s = Ok l ->
  (In VecAMX l ->
   _is_cpu_support_avx512 env = true /\ _is_cpu_support_amx_tile env = true)
  /\ (In VecAVX512 l -> _is_cpu_support_avx512 env = true)
  /\ (In VecAVX2 l -> _is_cpu_support_avx2 env = true).
Proof.
  intros Hr R. assert (Hs := reachable_consistent env s Hr).
  assert (H : forall isa,
             In isa l -> isa <> VecNEON -> isa <> VecZVECTOR ->
             exists sup,
               names_supported sup isa = true
               /\ (PyStr.mem "avx2" sup = true ->
                   _is_cpu_support_avx2 env = true)
               /\ (PyStr.mem "avx512" sup = true ->
                   _is_cpu_support_avx512 env = true)
               /\ (PyStr.mem "amx_tile" sup = true ->
                   _is_cpu_support_amx_tile env = true)).
  { intros isa HIn N1 N2.
    destruct (valid_list_member env s l isa Hs R HIn)
      as [E | [E | (sup & Rx & _ & N & _)]]; try contradiction.
    exists sup. split; [exact N |].
    apply (x86_isa_checker_reports env s sup Rx). }
  split; [| split]; intros HIn;
    destruct (H _ HIn) as (sup & N & A2 & A512 & Aamx); try discriminate;
    destruct (names_supported_catalogue sup) as (Na & Nw & N2 & _).
  - rewrite Na in N. apply andb_true_iff in N. destruct N. auto.
  - rewrite Nw in N. auto.
  - rewrite N2 in N. auto.
Qed.

Lemma valid_descriptor_has_host_features_witness :
  _is_cpu_support_avx2 Sample.haswell = true.
Proof.
  refine (proj2 (proj2 (valid_descriptor_has_host_features
                          Sample.haswell init_state [VecAVX2]
                          (reach_init _) _)) (or_introl eq_refl)).
  vm_compute. reflexivity.
Defined.

(** X10.  On the x86 branch, when no usability check raises, a
    descriptor is in the list exactly when it belongs to the catalogue,
    the host reports all its names and its own [bool] is true: whether
    another descriptor passed or failed does not matter.  The list has
    no duplicates. *)
Theorem valid_x86_membership env s sup :
  reachable env s ->
  PyStr.mem (sys_platform env) ["linux"; "win32"] = true ->
  PyStr.mem (platform_machine env) ["x86_64"; "AMD64"] = true ->
  run (x86_isa_checker env) s = Ok sup ->
  (forall isa, In isa supported_vec_isa_list ->
               names_supported sup isa = true ->
               exists b, run (isa_bool env isa) s = Ok b) ->
  exists l,
    run (valid_vec_isa_list env) s = Ok l
    /\ NoDup l
    /\ forall isa,
         In isa l <->
         (In isa supported_vec_isa_list
          /\ names_supported sup isa = true
          /\ run (isa_bool env isa) s = Ok true).
Proof.
  intros Hr P X Rx Hno. assert (Hs := reachable_consistent env s Hr).
  eexists. split; [apply (valid_list_x86 env s sup Hs P X Rx Hno) |].
  split.
  - apply NoDup_filter. unfold supported_vec_isa_list.
    repeat constructor; cbn; intuition discriminate.
  - intros isa. rewrite filter_In. unfold kept_in, usable_in.
    rewrite andb_true_iff.
    destruct (run (isa_bool env isa) s) as [[|] | e]; intuition congruence.
Qed.

Lemma valid_x86_membership_witness :
  exists l,
    run (valid_vec_isa_list Sample.auto_no_tiles) init_state = Ok l
    /\ In VecAVX2 l /\ ~ In VecAMX l.
Proof.
  destruct (valid_x86_membership Sample.auto_no_tiles init_state
              ["avx2"; "avx512"; "amx_tile"] (reach_init _)
              eq_refl eq_refl eq_refl) as (l & R & _ & H).
  - intros isa [<- | [<- | [<- | [<- | []]]]] _; eexists;
      vm_compute; reflexivity.
  - exists l. split; [exact R |]. split.
    + apply H. split; [cbn; auto |]. split; vm_compute; reflexivity.
    + intros HIn. apply H in HIn. destruct HIn as (_ & _ & B).
      vm_compute in B. discriminate B.
Defined.

Lemma first_of_width_sentinel width l :
  ~ In InvalidVecISA l ->
  first_of_width width l = invalid_vec_isa ->
  forall isa, In isa l -> bit_width isa <> width.
Proof.
  induction l as [| d rest IH]; intros N E isa HIn; [destruct HIn |].
  cbn in E. destruct (Z.eqb_spec width (bit_width d)) as [W | W].
  - exfalso. apply N. left. exact E.
  - destruct HIn as [<- | HIn]; [congruence |].
    apply IH; auto. intros H. apply N. now right.
Qed.

(** X11.  The sentinel is never an element of the list of valid
    descriptors; so outside fbcode [pick_vec_isa] returns the sentinel
    exactly when the list is empty, or a bit width is requested that no
    valid descriptor has. *)
Theorem sentinel_means_nothing_fits env s l :
  reachable env s ->
  is_fbcode env = false ->
  run (valid_vec_isa_list env) s = Ok l ->
  ~ In invalid_vec_isa l
  /\ (run (pick_vec_isa env) s = Ok invalid_vec_isa <->
      l = []
      \/ exists width,
           simdlen env = Some width
           /\ forall isa, In isa l -> bit_width isa <> width).
Proof.
  intros Hr F R. assert (Hs := reachable_consistent env s Hr).
  assert (N : ~ In invalid_vec_isa l).
  { intros HIn.
    destruct (valid_list_member env s l _ Hs R HIn)
      as [E | [E | (sup & _ & HC & _)]]; try discriminate.
    cbn in HC. intuition discriminate. }
  split; [exact N |].
  rewrite (pick_vec_isa_from_list env s l F R).
  destruct l as [| first rest]; [intuition |].
  destruct (simdlen env) as [width |]; split.
  - intros [= E]. right. exists width. split; [reflexivity |].
    now apply first_of_width_sentinel.
  - intros [E | (w & [= <-] & H)]; [discriminate |].
    now rewrite first_of_width_miss.
  - intros [= ->]. exfalso. apply N. now left.
  - intros [E | (w & E & _)]; discriminate.
Qed.

Lemma sentinel_means_nothing_fits_witness :
  run (pick_vec_isa Sample.width_999) init_state = Ok invalid_vec_isa.
Proof.
  refine (proj2 (proj2 (sentinel_means_nothing_fits
                          Sample.width_999 init_state
                          [VecAMX; VecAVX512; VecAVX2]
                          (reach_init _) eq_refl _)) _).
  - vm_compute. reflexivity.
  - right. exists 999. split; [reflexivity |].
    intros isa [<- | [<- | [<- | []]]]; cbn; lia.
Defined.

(* ================================================================== *)
(** ** Further properties: platforms without a dry compile *)
(* ================================================================== *)

Lemma trace_valid_vec_isa_list env s :
  trace (after (valid_vec_isa_list env) s)
  = match list_memo s with
    | Some _ => trace s
    | None => trace (after (valid_vec_isa_list_body env) s)
    end.
Proof. unfold valid_vec_isa_list. now rewrite trace_lru. Qed.

(** X12.  Off Linux and Windows nothing is probed: [valid_vec_isa_list]
    performs no external action and returns the NEON descriptor alone on
    Apple silicon and the empty list elsewhere, so that outside fbcode
    [pick_vec_isa] returns the sentinel on every such platform that is
    not Apple silicon. *)
Theorem other_platforms_are_not_probed env s :
  reachable env s ->
  PyStr.mem (sys_platform env) ["linux"; "win32"] = false ->
  run (valid_vec_isa_list env) s
  = Ok (if is_apple_arm env then [VecNEON] else [])
  /\ trace (after (valid_vec_isa_list env) s) = trace s
  /\ (is_fbcode env = false ->
      is_apple_arm env = false ->
      run (pick_vec_isa env) s = Ok invalid_vec_isa
      /\ trace (after (pick_vec_isa env) s) = trace s).
Proof.
  intros Hr P. assert (Hs := reachable_consistent env s Hr).
  assert (B : valid_vec_isa_list_body env
              = ret (if is_apple_arm env then [VecNEON] else [])).
  { unfold valid_vec_isa_list_body. rewrite P. cbn [negb].
    now destruct (is_apple_arm env). }
  assert (R : run (valid_vec_isa_list env) s
              = Ok (if is_apple_arm env then [VecNEON] else []))
    by (rewrite valid_vec_isa_list_unfold by exact Hs; now rewrite B).
  assert (T : trace (after (valid_vec_isa_list env) s) = trace s).
  { rewrite trace_valid_vec_isa_list, B. now destruct (list_memo s). }
  split; [exact R |]. split; [exact T |].
  intros F A. rewrite A in R. split.
  - now rewrite (pick_vec_isa_from_list env s [] F R).
  - unfold pick_vec_isa. rewrite F, after_bind, R. exact T.
Qed.

Lemma other_platforms_are_not_probed_witness :
  run (pick_vec_isa Sample.freebsd) init_state = Ok invalid_vec_isa
  /\ trace (after (pick_vec_isa Sample.freebsd) init_state) = [].
Proof.
  exact (proj2 (proj2 (other_platforms_are_not_probed Sample.freebsd
                         init_state (reach_init _) eq_refl))
               eq_refl eq_refl).
Defined.

(* ================================================================== *)
(** ** Further properties: reading /proc/cpuinfo *)
(* ================================================================== *)

Lemma scan_cpuinfo_count lines :
  forall isa_list,
    scan_cpuinfo lines isa_list
    = (isa_list
       ++ repeat VecZVECTOR (List.length (filter line_has_vxe lines)))%list.
Proof.
  induction lines as [| line rest IH]; intros isa_list;
    cbn [scan_cpuinfo filter].
  - cbn. now rewrite app_nil_r.
  - unfold line_has_vxe at 1.
    destruct (Re.match_features line) as [group |]; [| apply IH].
    destruct (existsb Re.search_vxe [group]); [| apply IH].
    rewrite IH, <- app_assoc. reflexivity.
Qed.

(** X13.  On s390x under Linux the list holds one ZVECTOR descriptor
    for every line of /proc/cpuinfo with a features entry in which vxe
    is found: the [break] of line 341 ends the loop over the groups, not
    the scan of the file, so two such lines give the descriptor twice. *)
Theorem s390x_one_descriptor_per_line env s content :
  reachable env s ->
  PyStr.mem (sys_platform env) ["linux"; "win32"] = true ->
  platform_machine env = "s390x" ->
  proc_cpuinfo env = Ok content ->
  run (valid_vec_isa_list env) s
  = Ok (repeat VecZVECTOR
          (List.length (filter line_has_vxe (PyStr.readlines content)))).
Proof.
  intros Hr P Z C. assert (Hs := reachable_consistent env s Hr).
  rewrite valid_vec_isa_list_unfold by exact Hs.
  unfold valid_vec_isa_list_body.
  rewrite P, (linux_or_win32_not_apple env P), Z, String.eqb_refl.
  cbn [negb]. rewrite run_bind, run_perform, C.
  now rewrite scan_cpuinfo_count.
Qed.

Lemma s390x_one_descriptor_per_line_witness :
  run (valid_vec_isa_list (Sample.mainframe (Ok Sample.cpuinfo_two_cpus)))
      init_state
  = Ok [VecZVECTOR; VecZVECTOR].
Proof.
  rewrite (s390x_one_descriptor_per_line
             (Sample.mainframe (Ok Sample.cpuinfo_two_cpus)) init_state
             Sample.cpuinfo_two_cpus (reach_init _) eq_refl eq_refl eq_refl).
  vm_compute. reflexivity.
Defined.

Lemma strip_prefix_spec p s r :
  PyStr.strip_prefix p s = Some r <-> s = p ++ r.
Proof.
  revert s. induction p as [| a p IH]; intros s; cbn.
  - split; [now intros [= ->] | now intros ->].
  - destruct s as [| b s]; [split; discriminate |].
    destruct (Ascii.eqb_spec a b) as [-> | N].
    + rewrite IH. split; [now intros -> | now intros [= ->]].
    + split; [discriminate | intros [= E _]; congruence].
Qed.

(** X14.  What the search of line 339 accepts: the group holds the
    letters vxe with a blank or a caret just before them and a blank or
    a dollar just after them, and nothing else is accepted.  A vxe
    standing at the very start or the very end of the group is therefore
    not found. *)
Theorem search_vxe_spec group :
  Re.search_vxe group = true <->
  exists before c d rest,
    group = before ++ String c ("vxe" ++ String d rest)
    /\ Re.caret_or_blank c = true
    /\ Re.dollar_or_blank d = true.
Proof.
  split.
  - induction group as [| c tail IH]; [discriminate |].
    cbn [Re.search_vxe].
    assert (K : Re.search_vxe tail = true ->
                exists before c0 d rest,
                  String c tail = before ++ String c0 ("vxe" ++ String d rest)
                  /\ Re.caret_or_blank c0 = true
                  /\ Re.dollar_or_blank d = true).
    { intros H. destruct (IH H) as (before & c0 & d & rest & E & A & B).
      exists (String c before), c0, d, rest. rewrite E. auto. }
    destruct (PyStr.strip_prefix "vxe" tail) as [[| d rest] |] eqn:P;
      try exact K.
    intros H. apply orb_true_iff in H. destruct H as [H | H]; [| now apply K].
    apply andb_true_iff in H. destruct H as [A B].
    apply strip_prefix_spec in P.
    exists "", c, d, rest. rewrite P. auto.
  - intros (before & c & d & rest & -> & A & B).
    induction before as [| x before IH].
    + cbn -[Re.caret_or_blank Re.dollar_or_blank].
      rewrite A, B. reflexivity.
    + cbn [append] in IH |- *. cbn [Re.search_vxe].
      destruct (PyStr.strip_prefix "vxe" _) as [[| d' rest'] |];
        rewrite ?IH, ?orb_true_r; reflexivity.
Qed.

(** X15.  What the match of line 336 yields: only a line that begins
    with the word features matches, and the group it yields holds no
    line feed and does not begin with white space. *)
Theorem match_features_group line group :
  Re.match_features line = Some group ->
  (exists rest, line = "features" ++ rest)
  /\ ~ In PyStr.LF (chars group)
  /\ (forall c tail, group = String c tail -> PyStr.is_space c = false).
Proof.
  unfold Re.match_features.
  destruct (PyStr.strip_prefix "features" line) as [r1 |] eqn:P1;
    [| discriminate].
  destruct (PyStr.strip_prefix ":" (PyStr.drop_while PyStr.is_space r1))
    as [r3 |]; [| discriminate].
  set (not_lf := fun c => negb (Ascii.eqb c PyStr.LF)).
  destruct (_ || _); [| discriminate].
  intros [= <-]. split; [| split].
  - exists r1. now apply strip_prefix_spec.
  - generalize (PyStr.drop_while PyStr.is_space r3) as r4.
    induction r4 as [| x r4 IH]; cbn; [auto |].
    destruct (not_lf x) eqn:N; cbn; [| auto].
    intros [E | H]; [| auto].
    subst x. unfold not_lf in N. cbn in N. discriminate N.
  - induction r3 as [| x r3 IH]; cbn; [discriminate |].
    destruct (PyStr.is_space x) eqn:S; [exact IH |].
    cbn. destruct (not_lf x); [| discriminate].
    now intros c tail [= <- _].
Qed.

Lemma match_features_group_witness :
  ~ In PyStr.LF (chars "vx vxe") /\ PyStr.is_space "v"%char = false.
Proof.
  destruct (match_features_group "features : vx vxe
" "vx vxe" eq_refl) as (_ & A & B).
  split; [exact A | exact (B _ _ eq_refl)].
Defined.

Lemma search_vxe_spec_witness :
  Re.search_vxe "vx vxe gs" = true /\ Re.search_vxe "vx vxe" = false.
Proof.
  split.
  - apply (proj2 (search_vxe_spec "vx vxe gs")).
    exists "vx", " "%char, " "%char, "gs". repeat split.
  - reflexivity.
Defined.

(* ================================================================== *)
(** ** Further properties: the descriptors' tables *)
(* ================================================================== *)

(** X16.  The lane counts fill the vector: for every descriptor but the
    sentinel, a vector holds as many floats as its bit width has
    32-bit words and as many bfloat16 or float16 values as it has 16-bit
    words, and an element type outside the table raises [KeyError]; on
    the sentinel every element type does. *)
Theorem lanes_fill_the_vector isa :
  isa <> InvalidVecISA ->
  nelements isa float32 = Ok (bit_width isa / 32)
  /\ nelements isa bfloat16 = Ok (bit_width isa / 16)
  /\ nelements isa float16 = Ok (bit_width isa / 16)
  /\ nelements isa float64 = Raise KeyError
  /\ forall dt, nelements InvalidVecISA dt = Raise KeyError.
Proof.
  intros N. destruct isa; try contradiction; repeat split;
    try reflexivity; intros []; reflexivity.
Qed.

Lemma lanes_fill_the_vector_witness :
  nelements VecAMX bfloat16 = Ok 32.
Proof.
  refine (proj1 (proj2 (lanes_fill_the_vector VecAMX _))). discriminate.
Defined.

(* ================================================================== *)
(** ** Further properties: fingerprints of different descriptors *)
(* ================================================================== *)

Lemma append_cancel_l (a b c : string) : a ++ b = a ++ c -> b = c.
Proof.
  induction a as [| x a IH]; cbn; [auto |]. intros [= H]. auto.
Qed.

(** X17.  In one environment two descriptors with different
    architecture flags have different dry-compile fingerprints, hence
    their probes are stored and locked apart; and the four descriptors
    with flags, matrix-tile, AVX-512, AVX2 and ZVECTOR, differ pairwise
    in them, on Windows as elsewhere. *)
Theorem fingerprints_tell_descriptors_apart env s a b :
  (_arch_flags env a <> _arch_flags env b ->
   run (_get_isa_dry_compile_fingerprint env (_arch_flags env a)) s
   <> run (_get_isa_dry_compile_fingerprint env (_arch_flags env b)) s)
  /\ (In a [VecAMX; VecAVX512; VecAVX2; VecZVECTOR] ->
      In b [VecAMX; VecAVX512; VecAVX2; VecZVECTOR] ->
      a <> b ->
      _arch_flags env a <> _arch_flags env b).
Proof.
  split.
  - intros N.
    destruct (get_compiler_version_info_total env (cpp_compiler env) s)
      as [v Rv].
    rewrite !(fingerprint_run env _ s v Rv). intros [= E].
    apply append_cancel_l in E. cbn [append] in E. injection E as E.
    apply append_cancel_r in E. contradiction.
  - unfold _arch_flags, VecAVX512_arch_flags.
    intros Ha Hb N.
    destruct (_IS_WINDOWS env); cbn [negb];
      destruct Ha as [<- | [<- | [<- | [<- | []]]]];
      destruct Hb as [<- | [<- | [<- | [<- | []]]]];
      try contradiction; cbn; discriminate.
Qed.

Lemma fingerprints_tell_descriptors_apart_witness :
  run (_get_isa_dry_compile_fingerprint Sample.haswell
         (_arch_flags Sample.haswell VecAMX)) init_state
  <> run (_get_isa_dry_compile_fingerprint Sample.haswell
            (_arch_flags Sample.haswell VecAVX512)) init_state.
Proof.
  destruct (fingerprints_tell_descriptors_apart Sample.haswell init_state
              VecAMX VecAVX512) as [A B].
  apply A, B; cbn; auto. discriminate.
Defined.

(* ================================================================== *)
(** ** Further properties: which descriptors are ever built *)
(* ================================================================== *)

Lemma emits_weaken {A} (P Q : event -> Prop) (m : M A) :
  (forall ev, P ev -> Q ev) -> emits P m -> emits Q m.
Proof.
  intros H Hm s. destruct (Hm s) as (evs & E & F).
  exists evs. split; [exact E |]. eapply Forall_impl; eauto.
Qed.

Lemma emits_lru {A} P find enter (body : M A) :
  (forall a s, trace (enter a s) = trace s) ->
  emits P body -> emits P (lru_cache find enter body).
Proof.
  intros He Hb s. rewrite trace_lru by exact He.
  destruct (find s); [| apply Hb].
  exists []. split; [now rewrite app_nil_r | constructor].
Qed.

(** The rule for [bind] when the continuation is only known on the
    values the first action can return. *)
Lemma emits_bind_on {A B} P (m : M A) (k : A -> M B) :
  emits P m ->
  (forall s a, run m s = Ok a -> emits P (k a)) ->
  emits P (bind m k).
Proof.
  intros Hm Hk s. rewrite after_bind.
  destruct (Hm s) as (evs1 & E1 & F1).
  destruct (run m s) as [a | e] eqn:R; [| now exists evs1].
  destruct (Hk s a R (after m s)) as (evs2 & E2 & F2).
  exists (evs1 ++ evs2)%list. rewrite E2, E1, app_assoc.
  split; [reflexivity |]. apply Forall_app. auto.
Qed.

Lemma check_build_builds_for_self env self code :
  emits (builds_for (eq self)) (check_build env self code).
Proof.
  assert (N1 : forall p, builds_for (eq self) (EvLockAcquire p))
    by (intros p b E; discriminate E).
  assert (N2 : forall p, builds_for (eq self) (EvLockRelease p))
    by (intros p b E; discriminate E).
  assert (N3 : forall a, builds_for (eq self) (EvCheckCall a))
    by (intros a b E; discriminate E).
  assert (N4 : forall c x y, builds_for (eq self) (EvWrite c x y))
    by (intros c x y b E; discriminate E).
  assert (N5 : forall k i d,
             builds_for (eq self)
               (EvBuild {| cb_name := k; cb_sources := i; cb_vec_isa := self;
                           cb_warning_all := false; cb_output_dir := d |}))
    by (intros k i d b [= <-]; reflexivity).
  unfold check_build. apply emits_bind.
  - apply emits_weaken with is_check_output; [| apply fingerprint_emits].
    intros ev [args ->] b E. discriminate E.
  - intros extra. unfold with_lock. auto 20 with emits.
Qed.

Lemma isa_bool_builds_for_self env isa :
  emits (builds_for (eq isa)) (isa_bool env isa).
Proof.
  assert (Base : forall d,
             emits (builds_for (eq d)) (VecISA_bool env d)).
  { intros d. apply emits_lru; [reflexivity |].
    unfold VecISA_bool_body.
    destruct (vec_isa_ok env); [apply emits_ret |].
    apply emits_if; [apply emits_ret | apply check_build_builds_for_self]. }
  destruct isa; cbn [isa_bool]; try apply Base.
  - apply emits_lru; [reflexivity |].
    unfold VecAMX_bool_body.
    assert (N : builds_for (eq VecAMX) EvInitAmx)
      by (intros b E; discriminate E).
    apply emits_bind; [apply Base |]. intros base.
    apply emits_if; [| apply emits_ret].
    apply emits_if; [apply emits_ret |].
    apply emits_bind; [apply check_build_builds_for_self |].
    intros built. auto 10 with emits.
  - apply emits_ret.
Qed.

Lemma scan_supported_builds_for env sup isas :
  forall isa_list,
    emits (builds_for (fun d => In d isas /\ names_supported sup d = true))
          (scan_supported env sup isas isa_list).
Proof.
  induction isas as [| isa rest IH]; intros isa_list; cbn [scan_supported].
  - apply emits_ret.
  - fold (names_supported sup isa).
    assert (W : emits (builds_for (fun d => In d (isa :: rest)
                                            /\ names_supported sup d = true))
                  (scan_supported env sup rest isa_list)
                /\ forall l,
                     emits (builds_for (fun d => In d (isa :: rest)
                                                 /\ names_supported sup d = true))
                       (scan_supported env sup rest l)).
    { split; [| intros l]; eapply emits_weaken; try apply IH;
        intros ev H b E; destruct (H b E); split; auto; now right. }
    destruct (names_supported sup isa) eqn:N; [| apply W].
    apply emits_bind; [| intros usable; apply W].
    eapply emits_weaken; [| apply isa_bool_builds_for_self].
    intros ev H b E. rewrite <- (H b E). split; [now left | exact N].
Qed.

Lemma x86_isa_checker_builds_nothing env P :
  emits (builds_for P) (x86_isa_checker env).
Proof.
  assert (N : forall n, builds_for P (EvCpuQuery n))
    by (intros n b E; discriminate E).
  unfold x86_isa_checker. auto 10 with emits.
Qed.

(** X18.  Nothing is built for a descriptor the host does not support:
    every build [valid_vec_isa_list] runs is for a descriptor of the
    catalogue all of whose names [x86_isa_checker] reports.  On the
    branches other than x86 it runs no build at all. *)
Theorem unsupported_descriptors_are_not_built env s sup :
  run (x86_isa_checker env) s = Ok sup ->
  exists evs,
    trace (after (valid_vec_isa_list env) s) = (trace s ++ evs)%list
    /\ forall b,
         In (EvBuild b) evs ->
         In (cb_vec_isa b) supported_vec_isa_list
         /\ names_supported sup (cb_vec_isa b) = true.
Proof.
  intros Rx.
  assert (E : emits (builds_for (fun d => In d supported_vec_isa_list
                                          /\ names_supported sup d = true))
                (valid_vec_isa_list env)).
  { apply emits_lru; [reflexivity |].
    unfold valid_vec_isa_list_body.
    assert (N : forall p, builds_for
                            (fun d => In d supported_vec_isa_list
                                      /\ names_supported sup d = true)
                            (EvOpen p))
      by (intros p b E; discriminate E).
    apply emits_if; [apply emits_ret |].
    apply emits_if; [auto with emits |].
    apply emits_if; [apply emits_ret |].
    apply emits_if; [| apply emits_ret].
    apply emits_bind_on; [apply x86_isa_checker_builds_nothing |].
    intros s' sup' R'.
    assert (sup' = sup) as ->.
    { rewrite (proj1 (oblivious_x86_isa_checker env) s' s), Rx in R'.
      congruence. }
    apply scan_supported_builds_for. }
  destruct (E s) as (evs & T & F). exists evs. split; [exact T |].
  intros b HIn. rewrite Forall_forall in F. exact (F _ HIn b eq_refl).
Qed.

Lemma unsupported_descriptors_are_not_built_witness :
  existsb is_build
    (trace (after (valid_vec_isa_list Sample.haswell) init_state)) = true
  /\ existsb (fun ev => match ev with
                        | EvBuild b =>
                            negb (VecISA_eqb (cb_vec_isa b) VecAVX2)
                        | _ => false
                        end)
       (trace (after (valid_vec_isa_list Sample.haswell) init_state))
     = false.
Proof.
  destruct (unsupported_descriptors_are_not_built Sample.haswell init_state
              ["avx2"] eq_refl) as (evs & T & H).
  split; [vm_compute; reflexivity |].
  cbn [trace init_state app] in T. rewrite T. clear T.
  induction evs as [| ev evs IH]; [reflexivity |].
  cbn [existsb]. rewrite IH by (intros b Hb; apply H; now right).
  rewrite orb_false_r. destruct ev; try reflexivity.
  destruct (H b (or_introl eq_refl)) as [HIn N].
  destruct (cb_vec_isa b); try reflexivity;
    vm_compute in N; discriminate N.
Defined.
